(** * Conversation Prioritization and Routing Core

    A shallow embedding of the urgency scoring algorithm and the routing
    logic of the Omnichannel Customer Experience Platform design document,
    together with the priority queue, the agent matcher, the assignment
    coordinator and the escalation state machine of the routing core.

    Numbers of the design (TypeScript [number]) that carry integers (scores,
    workloads, timestamps, counters) are [Z]; the signals in [-1,1] and
    [0,1] (sentiment score, confidences, performance score) are rationals
    [Q], compared exactly against the thresholds of the design. *)

From Stdlib Require Import ZArith QArith Bool List Lia Lqa Permutation Sorted.
From Stdlib Require Import String OrderedTypeEx.
From stdpp Require Import gmap strings.

Local Open Scope Z_scope.

(** ** Signals consumed by the core *)

Inductive IntentCategory : Set :=
  | INQUIRY | COMPLAINT | REQUEST | FEEDBACK | ESCALATION.

Record Intent := {
  category : IntentCategory;
  intentConfidence : Q
}.

Record IntentResult := {
  primaryIntent : Intent;
  confidence : Q;
  requiresHumanReview : bool
}.

Inductive SentimentLabel : Set :=
  | VERY_NEGATIVE | NEGATIVE | NEUTRAL | POSITIVE | VERY_POSITIVE.

Module SentimentResult.
Record t := {
  score : Q; (* -1.0 to +1.0 *)
  label : SentimentLabel
}.
End SentimentResult.

Inductive CustomerValue : Set := low | medium | high | vip.

Record CustomerProfile := {
  customerId : string;
  customerValue : CustomerValue
}.

(** Result of the contact-history lookup: the repeat-issue window in which
    the previous contact about the same issue falls, if any. *)
Inductive RepeatWindow : Set := NoRepeat | Within7Days | Within30Days.

(** The bundle scored by the Urgency Predictor.  [urgencyKeywords] tells
    whether the latest message carries one of the keywords (urgent, asap,
    immediately), [afterHours] whether it arrived outside business hours. *)
Record UrgencyContext := {
  intent : IntentResult;
  sentiment : SentimentResult.t;
  customerProfile : CustomerProfile;
  repeatWindow : RepeatWindow;
  urgencyKeywords : bool;
  afterHours : bool
}.

Record UrgencyFactor := {
  factor : string;
  contribution : Z;
  description : string
}.

Record UrgencyScore := {
  score : Z;
  factors : list UrgencyFactor;
  reasoning : string
}.

(** ** Urgency Predictor: the scoring algorithm *)

Module Scorer.

Definition Qltb (x y : Q) : bool := negb (Qle_bool y x).

Definition BaseScore : Z := 5.

Definition clamp (x lo hi : Z) : Z := Z.max lo (Z.min x hi).

Definition mkFactor (name : string) (c : Z) (why : string) : UrgencyFactor :=
  {| factor := name; contribution := c; description := why |}.

(** Sentiment Adjustment: score < -0.5: +2; score < -0.3: +1; score > 0.5: -1.
    The first rule that matches applies. *)
Definition sentimentRule (s : Q) : list UrgencyFactor :=
  if Qltb s (-1 # 2) then [mkFactor "sentiment" 2 "score < -0.5"]
  else if Qltb s (-3 # 10) then [mkFactor "sentiment" 1 "score < -0.3"]
  else if Qltb (1 # 2) s then [mkFactor "sentiment" (-1) "score > 0.5"]
  else [].

(** Intent Adjustment. *)
Definition intentRule (c : IntentCategory) : list UrgencyFactor :=
  match c with
  | ESCALATION => [mkFactor "intent" 3 "ESCALATION"]
  | COMPLAINT => [mkFactor "intent" 2 "COMPLAINT"]
  | REQUEST => [mkFactor "intent" 1 "REQUEST"]
  | INQUIRY => [mkFactor "intent" 0 "INQUIRY"]
  | FEEDBACK => [mkFactor "intent" 0 "FEEDBACK"]
  end.

(** Customer Value Adjustment. *)
Definition customerValueRule (v : CustomerValue) : list UrgencyFactor :=
  match v with
  | vip => [mkFactor "customerValue" 2 "VIP"]
  | high => [mkFactor "customerValue" 1 "High"]
  | medium => [mkFactor "customerValue" 0 "Medium"]
  | low => [mkFactor "customerValue" 0 "Low"]
  end.

(** Repeat Contact Adjustment. *)
Definition repeatContactRule (w : RepeatWindow) : list UrgencyFactor :=
  match w with
  | Within7Days => [mkFactor "repeatContact" 2 "same issue within 7 days"]
  | Within30Days => [mkFactor "repeatContact" 1 "same issue within 30 days"]
  | NoRepeat => []
  end.

(** Time Sensitivity: the keyword rule and the hour-of-day rule are
    independent lines of the table, both can apply to one message. *)
Definition timeSensitivityRule (kw ah : bool) : list UrgencyFactor :=
  (if kw then [mkFactor "timeSensitivity" 2 "keywords"] else [])
  ++ (if ah then [mkFactor "timeSensitivity" 1 "after hours"]
      else [mkFactor "timeSensitivity" 0 "business hours"]).

Definition total (fs : list UrgencyFactor) : Z :=
  fold_right (fun f acc => contribution f + acc) 0 fs.

Definition appliedRules (ctx : UrgencyContext) : list UrgencyFactor :=
  sentimentRule (SentimentResult.score (sentiment ctx))
  ++ intentRule (category (primaryIntent (intent ctx)))
  ++ customerValueRule (customerValue (customerProfile ctx))
  ++ repeatContactRule (repeatWindow ctx)
  ++ timeSensitivityRule (urgencyKeywords ctx) (afterHours ctx).

Definition explain (fs : list UrgencyFactor) : string :=
  String.concat "; " (map description fs).

(** Final Score = clamp(Base + Adjustments, 1, 10). *)
Definition predictUrgency (ctx : UrgencyContext) : UrgencyScore :=
  let fs := appliedRules ctx in
  {| score := clamp (BaseScore + total fs) 1 10;
     factors := fs;
     reasoning := explain fs |}.

(** The adjustment tables, one per factor, as functions of the signal. *)
Definition sentimentAdjustment (s : Q) : Z :=
  if Qltb s (-1 # 2) then 2
  else if Qltb s (-3 # 10) then 1
  else if Qltb (1 # 2) s then -1
  else 0.

Definition intentAdjustment (c : IntentCategory) : Z :=
  match c with
  | ESCALATION => 3 | COMPLAINT => 2 | REQUEST => 1
  | INQUIRY => 0 | FEEDBACK => 0
  end.

Definition customerValueAdjustment (v : CustomerValue) : Z :=
  match v with vip => 2 | high => 1 | medium => 0 | low => 0 end.

Definition repeatContactAdjustment (w : RepeatWindow) : Z :=
  match w with Within7Days => 2 | Within30Days => 1 | NoRepeat => 0 end.

Definition timeSensitivityAdjustment (kw ah : bool) : Z :=
  (if kw then 2 else 0) + (if ah then 1 else 0).

Definition adjustments (ctx : UrgencyContext) : Z :=
  sentimentAdjustment (SentimentResult.score (sentiment ctx))
  + intentAdjustment (category (primaryIntent (intent ctx)))
  + customerValueAdjustment (customerValue (customerProfile ctx))
  + repeatContactAdjustment (repeatWindow ctx)
  + timeSensitivityAdjustment (urgencyKeywords ctx) (afterHours ctx).

End Scorer.

(** ** Agents and the Agent Matcher *)

Inductive AgentStatus : Set := available | busy | offline.

(** The design's Agent; [idleSince], the time since which the roster
    reports the agent idle, supports the longest-idle tie-break of the
    matcher. *)
Record Agent := {
  agentId : string;
  name : string;
  skills : list string;
  languages : list string;
  currentWorkload : Z;
  maxWorkload : Z;
  status : AgentStatus;
  performanceScore : Q;
  idleSince : Z
}.

Module AgentRequirements.
Record t := {
  skills : list string;
  language : string;
  urgency : Z;
  preferredAgentId : option string
}.
End AgentRequirements.

Module Matcher.

Definition isAvailable (a : Agent) : bool :=
  match status a with available => true | _ => false end.

Definition underCap (a : Agent) : bool :=
  currentWorkload a <? maxWorkload a.

Definition hasSkills (required : list string) (a : Agent) : bool :=
  forallb (fun s => existsb (String.eqb s) (skills a)) required.

Definition speaks (lang : string) (a : Agent) : bool :=
  existsb (String.eqb lang) (languages a).

(** Modelled from the spec: the eligibility filter of the selection policy
    (status available, workload under the cap, superset of the required
    skills, matching language); the design document only lists the
    criteria. *)
Definition eligible (r : AgentRequirements.t) (a : Agent) : bool :=
  isAvailable a && underCap a
  && hasSkills (AgentRequirements.skills r) a
  && speaks (AgentRequirements.language r) a.

(** Modelled from the spec: ranking by performanceScore descending, then
    currentWorkload ascending, then longest idle. *)
Definition better (a b : Agent) : bool :=
  Scorer.Qltb (performanceScore b) (performanceScore a)
  || (Qeq_bool (performanceScore a) (performanceScore b)
      && ((currentWorkload a <? currentWorkload b)
          || ((currentWorkload a =? currentWorkload b)
              && (idleSince a <? idleSince b)))).

Fixpoint top (best : Agent) (rest : list Agent) : Agent :=
  match rest with
  | [] => best
  | a :: rest' => top (if better a best then a else best) rest'
  end.

Definition topCandidate (survivors : list Agent) : option Agent :=
  match survivors with
  | [] => None
  | a :: rest => Some (top a rest)
  end.

Definition preferred (r : AgentRequirements.t) (directory : list Agent)
  : option Agent :=
  match AgentRequirements.preferredAgentId r with
  | None => None
  | Some pid =>
      match find (fun a => String.eqb (agentId a) pid) directory with
      | Some a => if eligible r a then Some a else None
      | None => None
      end
  end.

(** Modelled from the spec: findBestAgent, the selection function of the
    Agent Matcher over a snapshot of the directory (the design document
    gives its interface and criteria, not its body); [None] is
    NoAgentAvailable. *)
Definition findBestAgent (r : AgentRequirements.t) (directory : list Agent)
  : option Agent :=
  match preferred r directory with
  | Some a => Some a
  | None => topCandidate (List.filter (eligible r) directory)
  end.

End Matcher.

(** ** Routing Engine: the routing logic *)

Inductive Decision : Set := automate | assign_agent | queue.

Module RoutingDecision.
Record t := {
  decision : Decision;
  agentId : option string;
  estimatedWaitTime : option Z;
  reasoning : string
}.
End RoutingDecision.

Module Routing.

(** Step 1: automation is appropriate when intent confidence > 85% and
    urgency < 8. *)
Definition automationAppropriate (i : IntentResult) (u : UrgencyScore) : bool :=
  Scorer.Qltb (85 # 100) (confidence i) && (score u <? 8).

(** routeConversation; [i] is the intent result of the conversation's latest
    message, [waitEstimate] the wait time the queue currently announces. *)
Definition routeConversation (i : IntentResult) (u : UrgencyScore)
    (r : AgentRequirements.t) (directory : list Agent) (waitEstimate : Z)
  : RoutingDecision.t :=
  if automationAppropriate i u then
    {| RoutingDecision.decision := automate;
       RoutingDecision.agentId := None;
       RoutingDecision.estimatedWaitTime := None;
       RoutingDecision.reasoning := "automation appropriate" |}
  else
    match Matcher.findBestAgent r directory with
    | Some a =>
        {| RoutingDecision.decision := assign_agent;
           RoutingDecision.agentId := Some (agentId a);
           RoutingDecision.estimatedWaitTime := None;
           RoutingDecision.reasoning := "best available agent" |}
    | None =>
        {| RoutingDecision.decision := queue;
           RoutingDecision.agentId := None;
           RoutingDecision.estimatedWaitTime := Some waitEstimate;
           RoutingDecision.reasoning := "no agents available" |}
    end.

End Routing.

(** ** Results of fallible operations *)

Inductive Result (E A : Type) : Type :=
  | Ok (a : A)
  | Err (e : E).
Arguments Ok {E A} a.
Arguments Err {E A} e.

(** ** Priority Queue *)

Module QueueEntry.
Record t := {
  conversationId : string;
  urgencyScore : Z;   (* snapshot *)
  enqueueTime : Z
}.
End QueueEntry.

Module PriorityQueue.

Import QueueEntry.

Inductive QueueError : Set := DuplicateEntry | Empty.

(** The sort key: urgencyScore descending, then enqueueTime ascending, then
    conversationId (ascending) as the final tie-break.  [Lt] says that the
    first entry is served first. *)
Definition compareKey (a b : QueueEntry.t) : comparison :=
  match Z.compare (urgencyScore b) (urgencyScore a) with
  | Eq =>
      match Z.compare (enqueueTime a) (enqueueTime b) with
      | Eq => String.compare (conversationId a) (conversationId b)
      | c => c
      end
  | c => c
  end.

Definition before (a b : QueueEntry.t) : bool :=
  match compareKey a b with Gt => false | _ => true end.

(** The same order, spelled out. *)
Definition servedBefore (a b : QueueEntry.t) : Prop :=
  urgencyScore a > urgencyScore b
  \/ (urgencyScore a = urgencyScore b
      /\ (enqueueTime a < enqueueTime b
          \/ (enqueueTime a = enqueueTime b
              /\ String.leb (conversationId a) (conversationId b) = true))).

Definition holds (cid : string) (e : QueueEntry.t) : bool :=
  String.eqb (conversationId e) cid.

(** Modelled from the spec: the queue of live entries and its operations
    enqueue, dequeueHighest, reprioritize, remove and status; the design
    document has no queue implementation.  The entries are held as a bag
    and the highest-priority one is selected at each dequeue, so the key
    in force at the moment of the dequeue decides. *)
Definition enqueue (e : QueueEntry.t) (q : list QueueEntry.t)
  : Result QueueError (list QueueEntry.t) :=
  if existsb (holds (conversationId e)) q then Err DuplicateEntry
  else Ok (q ++ [e]).

(** [select e q] splits the entries [e :: q] into the one served first and
    the others. *)
Fixpoint select (e : QueueEntry.t) (q : list QueueEntry.t)
  : QueueEntry.t * list QueueEntry.t :=
  match q with
  | [] => (e, [])
  | x :: q' =>
      if before e x
      then let (h, others) := select e q' in (h, x :: others)
      else let (h, others) := select x q' in (h, e :: others)
  end.

Definition dequeueHighest (q : list QueueEntry.t)
  : Result QueueError (QueueEntry.t * list QueueEntry.t) :=
  match q with
  | [] => Err Empty
  | e :: q' => Ok (select e q')
  end.

Definition rescore (newScore : Z) (e : QueueEntry.t) : QueueEntry.t :=
  {| conversationId := conversationId e;
     urgencyScore := newScore;
     enqueueTime := enqueueTime e |}.

Definition reprioritize (cid : string) (newScore : Z) (q : list QueueEntry.t)
  : list QueueEntry.t :=
  map (fun e => if holds cid e then rescore newScore e else e) q.

Definition remove (cid : string) (q : list QueueEntry.t) : list QueueEntry.t :=
  List.filter (fun e => negb (holds cid e)) q.

Record QueueStatus := {
  totalQueued : Z;
  averageWaitTime : Z;
  queuedByUrgency : Z -> Z
}.

Definition waited (now : Z) (q : list QueueEntry.t) : Z :=
  fold_right (fun e acc => (now - enqueueTime e) + acc) 0 q.

Definition countAt (bucket : Z) (q : list QueueEntry.t) : Z :=
  Z.of_nat (length (List.filter (fun e => urgencyScore e =? bucket) q)).

Definition status (now : Z) (q : list QueueEntry.t) : QueueStatus :=
  {| totalQueued := Z.of_nat (length q);
     averageWaitTime :=
       match q with [] => 0 | _ => waited now q / Z.of_nat (length q) end;
     queuedByUrgency := fun bucket => countAt bucket q |}.

(** [n] successive dequeueHighest calls: the entries they return, in the
    order of the calls (fewer than [n] when the queue runs Empty). *)
Fixpoint dequeueMany (n : nat) (q : list QueueEntry.t) : list QueueEntry.t :=
  match n with
  | O => []
  | S k =>
      match dequeueHighest q with
      | Ok (h, q') => h :: dequeueMany k q'
      | Err _ => []
      end
  end.

(** Successive enqueue calls; the first failure stops the sequence. *)
Fixpoint enqueueAll (es : list QueueEntry.t) (q : list QueueEntry.t)
  : Result QueueError (list QueueEntry.t) :=
  match es with
  | [] => Ok q
  | e :: es' =>
      match enqueue e q with
      | Ok q' => enqueueAll es' q'
      | Err err => Err err
      end
  end.

Definition entry (cid : string) (s t : Z) : QueueEntry.t :=
  {| conversationId := cid; urgencyScore := s; enqueueTime := t |}.

End PriorityQueue.

(** ** Conversations and the Escalation State Machine *)

Inductive State : Set :=
  | Automated   (* candidate for bot handling *)
  | Queued      (* awaiting human *)
  | Assigned    (* with agent *)
  | Escalated   (* forced human path *)
  | Resolved
  | Archived.

Module Conversation.
Record t := {
  conversationId : string;
  customerId : string;
  state : State;
  urgencyScore : Z;
  escalated : bool;
  automationAttempts : Z;
  assignedAgentId : option string
}.
End Conversation.

Module Signals.
(** What the state machine looks at when it evaluates an automated
    conversation. *)
Record t := {
  escalationKeyword : bool;     (* explicit escalation keyword detected *)
  automationAttempts : Z;       (* automated replies sent so far *)
  urgencyScore : Z;
  sentimentDeterioration : Q    (* drop of the sentiment score *)
}.
End Signals.

Module Escalation.

Inductive Event : Type :=
  | Evaluate (sig : Signals.t)  (* a new signal bundle was scored *)
  | AssignmentSuccess           (* Assignment Coordinator success *)
  | ResolutionMarked            (* agent/automation marks resolution *)
  | AgentDisconnect
  | SlaTimeout
  | Inactive24h.

(** Modelled from the spec: the conditions of the transition
    Automated -> Escalated: explicit escalation keyword detected, or
    automationAttempts >= 3 without resolution (a conversation still in
    Automated has not been resolved), or urgencyScore > 8, or sentiment
    deterioration > 0.3. *)
Definition mustEscalate (sig : Signals.t) : bool :=
  Signals.escalationKeyword sig
  || (3 <=? Signals.automationAttempts sig)
  || (8 <? Signals.urgencyScore sig)
  || Scorer.Qltb (3 # 10) (Signals.sentimentDeterioration sig).

(** Modelled from the spec: the transitions of the escalation state
    machine, which the design document does not define.  A pair of state
    and event that the transition list does not mention leaves the state
    as it is. *)
Definition transition (s : State) (e : Event) : State :=
  match s, e with
  | Automated, Evaluate sig => if mustEscalate sig then Escalated else Automated
  | Escalated, AssignmentSuccess => Assigned
  | Queued, AssignmentSuccess => Assigned
  | Assigned, ResolutionMarked => Resolved
  | Assigned, AgentDisconnect => Queued
  | Assigned, SlaTimeout => Queued
  | Resolved, Inactive24h => Archived
  | _, _ => s
  end.

Definition run (s : State) (events : list Event) : State :=
  fold_left transition events s.

(** Modelled from the spec: the initial state on conversation creation,
    Automated if intent confidence > 0.85 and urgency < 8, else Escalated
    when an escalation condition holds and Queued otherwise. *)
Definition initialState (i : IntentResult) (sig : Signals.t) : State :=
  if Scorer.Qltb (85 # 100) (confidence i) && (Signals.urgencyScore sig <? 8)
  then Automated
  else if mustEscalate sig then Escalated else Queued.

End Escalation.

(** ** Assignment Coordinator *)

Module Coordinator.

Inductive AssignError : Set :=
  | AlreadyAssigned
  | AlreadyAtCapacity
  | NotAssigned.

(** The registry of agents, the conversations owned by the core and the
    priority queue. *)
Record System := {
  agents : gmap string Agent;
  conversations : gmap string Conversation.t;
  queue : list QueueEntry.t
}.

Definition assignable (s : State) : bool :=
  match s with Automated | Queued => true | _ => false end.

Definition addWorkload (d : Z) (a : Agent) : Agent :=
  {| agentId := agentId a; name := name a; skills := skills a;
     languages := languages a;
     currentWorkload := currentWorkload a + d;
     maxWorkload := maxWorkload a; status := status a;
     performanceScore := performanceScore a; idleSince := idleSince a |}.

Definition moveTo (s : State) (agent : option string) (c : Conversation.t)
  : Conversation.t :=
  {| Conversation.conversationId := Conversation.conversationId c;
     Conversation.customerId := Conversation.customerId c;
     Conversation.state := s;
     Conversation.urgencyScore := Conversation.urgencyScore c;
     Conversation.escalated := Conversation.escalated c;
     Conversation.automationAttempts := Conversation.automationAttempts c;
     Conversation.assignedAgentId := agent |}.

(** Modelled from the spec: assign(conversationId, agentId) of the
    Assignment Coordinator, absent from the design document.  It fails with
    AlreadyAssigned unless the conversation is in an assignable state,
    re-validates the agent's workload against the cap, and on success sets
    the conversation to Assigned, increments the agent's workload and
    removes the queue entry.  A failed call returns the system as it was.
    An unknown conversation is in no assignable state; an unknown agent has
    no capacity. *)
Definition assign (cid aid : string) (σ : System)
  : Result AssignError unit * System :=
  match conversations σ !! cid with
  | None => (Err AlreadyAssigned, σ)
  | Some c =>
      if assignable (Conversation.state c) then
        match agents σ !! aid with
        | None => (Err AlreadyAtCapacity, σ)
        | Some a =>
            if currentWorkload a <? maxWorkload a then
              (Ok tt,
               {| agents := <[aid := addWorkload 1 a]> (agents σ);
                  conversations :=
                    <[cid := moveTo Assigned (Some aid) c]> (conversations σ);
                  queue := PriorityQueue.remove cid (queue σ) |})
            else (Err AlreadyAtCapacity, σ)
        end
      else (Err AlreadyAssigned, σ)
  end.

Inductive ReleaseReason : Set := Resolution | AgentFailure.

Definition afterRelease (r : ReleaseReason) : State :=
  match r with Resolution => Resolved | AgentFailure => Queued end.

(** Modelled from the spec: release(conversationId): the conversation goes
    to Resolved (or back to Queued on agent failure) and the workload of
    its agent is decremented. *)
Definition release (cid : string) (r : ReleaseReason) (σ : System)
  : Result AssignError unit * System :=
  match conversations σ !! cid with
  | Some c =>
      match Conversation.state c, Conversation.assignedAgentId c with
      | Assigned, Some aid =>
          (Ok tt,
           {| agents := alter (addWorkload (-1)) aid (agents σ);
              conversations :=
                <[cid := moveTo (afterRelease r) None c]> (conversations σ);
              queue := queue σ |})
      | _, _ => (Err NotAssigned, σ)
      end
  | None => (Err NotAssigned, σ)
  end.

(** The operations that mutate workloads, and their runs. *)
Inductive Op : Set :=
  | OpAssign (cid aid : string)
  | OpRelease (cid : string) (r : ReleaseReason).

Definition perform (σ : System) (op : Op) : System :=
  match op with
  | OpAssign cid aid => snd (assign cid aid σ)
  | OpRelease cid r => snd (release cid r σ)
  end.

Definition runOps (σ : System) (ops : list Op) : System :=
  fold_left perform ops σ.

(** Every agent's currentWorkload is at most its maxWorkload. *)
Definition capRespected (σ : System) : Prop :=
  ∀ aid a, agents σ !! aid = Some a → currentWorkload a <= maxWorkload a.

(** The snapshot of the directory handed to the matcher. *)
Definition snapshot (σ : System) : list Agent :=
  map snd (map_to_list (agents σ)).

End Coordinator.

(** ** Inputs that differ in one factor *)

Module Factors.

Inductive Factor : Set :=
  | SentimentFactor | IntentFactor | CustomerValueFactor | KeywordFactor.

Definition sentimentOf (c : UrgencyContext) : Q :=
  SentimentResult.score (sentiment c).
Definition categoryOf (c : UrgencyContext) : IntentCategory :=
  category (primaryIntent (intent c)).
Definition valueOf (c : UrgencyContext) : CustomerValue :=
  customerValue (customerProfile c).

(** [differOnlyIn k a b]: the inputs [a] and [b] differ in the factor [k]
    and agree on every other signal the scorer reads. *)
Definition differOnlyIn (k : Factor) (a b : UrgencyContext) : Prop :=
  match k with
  | SentimentFactor =>
      ~ (sentimentOf a == sentimentOf b)%Q
      /\ categoryOf a = categoryOf b /\ valueOf a = valueOf b
      /\ repeatWindow a = repeatWindow b
      /\ urgencyKeywords a = urgencyKeywords b /\ afterHours a = afterHours b
  | IntentFactor =>
      categoryOf a <> categoryOf b
      /\ sentimentOf a = sentimentOf b /\ valueOf a = valueOf b
      /\ repeatWindow a = repeatWindow b
      /\ urgencyKeywords a = urgencyKeywords b /\ afterHours a = afterHours b
  | CustomerValueFactor =>
      valueOf a <> valueOf b
      /\ sentimentOf a = sentimentOf b /\ categoryOf a = categoryOf b
      /\ repeatWindow a = repeatWindow b
      /\ urgencyKeywords a = urgencyKeywords b /\ afterHours a = afterHours b
  | KeywordFactor =>
      urgencyKeywords a <> urgencyKeywords b
      /\ sentimentOf a = sentimentOf b /\ categoryOf a = categoryOf b
      /\ valueOf a = valueOf b
      /\ repeatWindow a = repeatWindow b /\ afterHours a = afterHours b
  end.

(** The adjustment that the factor [k] contributes for the input [c]. *)
Definition adjustmentOf (k : Factor) (c : UrgencyContext) : Z :=
  match k with
  | SentimentFactor => Scorer.sentimentAdjustment (sentimentOf c)
  | IntentFactor => Scorer.intentAdjustment (categoryOf c)
  | CustomerValueFactor => Scorer.customerValueAdjustment (valueOf c)
  | KeywordFactor =>
      Scorer.timeSensitivityAdjustment (urgencyKeywords c) (afterHours c)
  end.

(** [vipTwin a b]: [a] has a VIP profile, [b] a non-VIP profile, and the two
    inputs are otherwise identical. *)
Definition vipTwin (a b : UrgencyContext) : Prop :=
  valueOf a = vip /\ valueOf b <> vip
  /\ sentimentOf a = sentimentOf b /\ categoryOf a = categoryOf b
  /\ repeatWindow a = repeatWindow b
  /\ urgencyKeywords a = urgencyKeywords b /\ afterHours a = afterHours b.

End Factors.

(** ** Sample data *)

Module Samples.

Definition context (s : Q) (c : IntentCategory) (v : CustomerValue)
    (w : RepeatWindow) (kw ah : bool) : UrgencyContext :=
  {| intent :=
       {| primaryIntent := {| category := c; intentConfidence := 9 # 10 |};
          confidence := 9 # 10;
          requiresHumanReview := false |};
     sentiment := {| SentimentResult.score := s;
                     SentimentResult.label := NEUTRAL |};
     customerProfile := {| customerId := "cust-1"; customerValue := v |};
     repeatWindow := w;
     urgencyKeywords := kw;
     afterHours := ah |}.

Definition intentWith (conf : Q) : IntentResult :=
  {| primaryIntent := {| category := INQUIRY; intentConfidence := conf |};
     confidence := conf;
     requiresHumanReview := false |}.

Definition defaultMaxWorkload : Z := 5.

Definition agent (aid : string) (load : Z) (perf : Q) : Agent :=
  {| agentId := aid; name := aid; skills := ["billing"];
     languages := ["en"];
     currentWorkload := load; maxWorkload := defaultMaxWorkload;
     status := available; performanceScore := perf; idleSince := 0 |}.

Definition requirements (pref : option string) : AgentRequirements.t :=
  {| AgentRequirements.skills := ["billing"];
     AgentRequirements.language := "en";
     AgentRequirements.urgency := 7;
     AgentRequirements.preferredAgentId := pref |}.

(** Agent A at 5/5, agent B at 2/5 with performance 0.9, agent C at 0/5
    with performance 0.95. *)
Definition roster : list Agent :=
  [agent "A" 5 (99 # 100); agent "B" 2 (9 # 10); agent "C" 0 (95 # 100)].

Definition conversation (cid : string) (s : State) : Conversation.t :=
  {| Conversation.conversationId := cid;
     Conversation.customerId := "cust-1";
     Conversation.state := s;
     Conversation.urgencyScore := 9;
     Conversation.escalated := false;
     Conversation.automationAttempts := 0;
     Conversation.assignedAgentId := None |}.

Definition system : Coordinator.System :=
  {| Coordinator.agents := {[ "B" := agent "B" 4 (9 # 10) ]};
     Coordinator.conversations :=
       {[ "conv-1" := conversation "conv-1" Queued ]};
     Coordinator.queue := [PriorityQueue.entry "conv-1" 9 100] |}.

Definition signals (kw : bool) (attempts urgency : Z) (drop : Q) : Signals.t :=
  {| Signals.escalationKeyword := kw;
     Signals.automationAttempts := attempts;
     Signals.urgencyScore := urgency;
     Signals.sentimentDeterioration := drop |}.

End Samples.

(** ** Inputs of the scorer with one signal replaced *)

Module Updates.

Definition withSentiment (s : SentimentResult.t) (c : UrgencyContext)
  : UrgencyContext :=
  {| intent := intent c; sentiment := s;
     customerProfile := customerProfile c;
     repeatWindow := repeatWindow c;
     urgencyKeywords := urgencyKeywords c; afterHours := afterHours c |}.

Definition withRepeatWindow (w : RepeatWindow) (c : UrgencyContext)
  : UrgencyContext :=
  {| intent := intent c; sentiment := sentiment c;
     customerProfile := customerProfile c;
     repeatWindow := w;
     urgencyKeywords := urgencyKeywords c; afterHours := afterHours c |}.

End Updates.

(** ** Intent Classifier: review flag and ranking of intents *)

Section Ranking.

Variable A : Type.
Variable key : A -> Q.

(** Descending order of [key]; entries with equal keys keep the order in
    which they were given. *)
Fixpoint insertRanked (x : A) (l : list A) : list A :=
  match l with
  | [] => [x]
  | y :: l' =>
      if Scorer.Qltb (key x) (key y) then y :: insertRanked x l'
      else x :: y :: l'
  end.

Definition rank (l : list A) : list A := fold_right insertRanked [] l.

(** [x] is ranked no lower than [y]. *)
Definition above (x y : A) : Prop := (key y <= key x)%Q.

End Ranking.

Arguments insertRanked {A} key x l.
Arguments rank {A} key l.
Arguments above {A} key x y.

Module IntentClassifier.

(** Low confidence flagging: a classification with confidence below 0.70 is
    flagged for human review. *)
Definition flagForReview (conf : Q) : bool := Scorer.Qltb conf (70 # 100).

Definition classified (primary : Intent) (conf : Q) : IntentResult :=
  {| primaryIntent := primary;
     confidence := conf;
     requiresHumanReview := flagForReview conf |}.

(** Multi-intent ranking: the detected intents in descending order of
    relevance. *)
Definition rankIntents (detected : list Intent) : list Intent :=
  rank intentConfidence detected.

End IntentClassifier.

(** ** Action Recommender *)

Inductive ActionType : Set :=
  | SEND_RESPONSE | ISSUE_REFUND | ESCALATE
  | SCHEDULE_FOLLOWUP | UPDATE_ORDER | SEND_DOCUMENTATION.

Module ActionRecommendation.
Record t := {
  actionId : string;
  type : ActionType;
  description : string;
  confidence : Q;
  expectedOutcome : string
}.
End ActionRecommendation.

Module Recommender.

(** Recommendation algorithm: rank the candidate actions by success
    probability and return the top 3. *)
Definition getRecommendations (candidates : list ActionRecommendation.t)
  : list ActionRecommendation.t :=
  firstn 3 (rank ActionRecommendation.confidence candidates).

End Recommender.

(** ** Error recovery: retries with exponential backoff *)

Module Ingestion.

Definition maxAttempts : nat := 5.

(** 2^n seconds, [n] the attempt number. *)
Definition backoffDelay (n : nat) : Z := 2 ^ Z.of_nat n.

Inductive Outcome : Set :=
  | Processed (attempt : nat)
  | DeadLettered.

Record Report := {
  outcome : Outcome;
  failureLog : list nat;   (* the attempts logged as failed *)
  totalDelay : Z           (* seconds waited between attempts *)
}.

(** [attempts succeeds n budget]: attempt number [n] and the following
    ones, [budget] attempts in all; [succeeds k] tells whether attempt [k]
    goes through.  A failed attempt is logged and, when another attempt
    follows, the retry waits [backoffDelay]; a message whose attempts all
    fail goes to the dead letter queue. *)
Fixpoint attempts (succeeds : nat -> bool) (n budget : nat) : Report :=
  match budget with
  | O => {| outcome := DeadLettered; failureLog := []; totalDelay := 0 |}
  | S budget' =>
      if succeeds n
      then {| outcome := Processed n; failureLog := []; totalDelay := 0 |}
      else
        let r := attempts succeeds (S n) budget' in
        {| outcome := outcome r;
           failureLog := n :: failureLog r;
           totalDelay :=
             (match budget' with O => 0 | S _ => backoffDelay n end)
             + totalDelay r |}
  end.

Definition ingest (succeeds : nat -> bool) : Report :=
  attempts succeeds 1 maxAttempts.

End Ingestion.

(** ** Error recovery: circuit breaker *)

Module CircuitBreaker.

Definition failureThreshold : nat := 5.   (* consecutive failures *)
Definition recoveryTimeout : Z := 30.     (* seconds *)
Definition successThreshold : nat := 3.   (* successful requests *)

Inductive Circuit : Set :=
  | Closed (consecutiveFailures : nat)
  | Open (openedAt : Z)
  | HalfOpen (successes : nat).

(** A request to the dependency at time [time]; [ok] is its result when the
    breaker lets it through. *)
Record Call := {
  time : Z;
  ok : bool
}.

(** Half-open after 30 seconds to test recovery. *)
Definition trial (c : Circuit) (now : Z) : Circuit :=
  match c with
  | Open t => if recoveryTimeout <=? now - t then HalfOpen 0 else Open t
  | _ => c
  end.

(** The breaker after one request: the circuit opens after 5 consecutive
    failures, and closes after 3 successful requests in the half-open
    state; a request that reaches an open circuit is rejected and leaves it
    open, and a failure while recovery is tested opens the circuit again. *)
Definition record (c : Circuit) (call : Call) : Circuit :=
  match trial c (time call) with
  | Closed k =>
      if ok call then Closed 0
      else if (failureThreshold <=? S k)%nat then Open (time call)
      else Closed (S k)
  | HalfOpen s =>
      if ok call
      then if (successThreshold <=? S s)%nat then Closed 0 else HalfOpen (S s)
      else Open (time call)
  | Open t => Open t
  end.

Definition run (c : Circuit) (calls : list Call) : Circuit :=
  fold_left record calls c.

(** [failureThreshold] consecutive failed calls somewhere in [calls]. *)
Definition failureBurst (calls : list Call) : Prop :=
  exists before burst after,
    calls = before ++ burst ++ after
    /\ length burst = failureThreshold
    /\ Forall (fun c => ok c = false) burst.

End CircuitBreaker.

(** ** More sample data *)

Module MoreSamples.

Definition action (aid : string) (k : ActionType) (conf : Q)
  : ActionRecommendation.t :=
  {| ActionRecommendation.actionId := aid;
     ActionRecommendation.type := k;
     ActionRecommendation.description := aid;
     ActionRecommendation.confidence := conf;
     ActionRecommendation.expectedOutcome := "resolved" |}.

Definition candidates : list ActionRecommendation.t :=
  [action "reply" SEND_RESPONSE (5 # 10);
   action "refund" ISSUE_REFUND (9 # 10);
   action "docs" SEND_DOCUMENTATION (2 # 10);
   action "followup" SCHEDULE_FOLLOWUP (7 # 10)].

Definition call (t : Z) (result : bool) : CircuitBreaker.Call :=
  {| CircuitBreaker.time := t; CircuitBreaker.ok := result |}.

(** An ingestion whose first two attempts fail. *)
Definition thirdTime (n : nat) : bool := (3 <=? n)%nat.

End MoreSamples.

(** * Properties *)

(** ** Urgency Predictor *)

Module ScorerFacts.

Import Scorer.

Lemma total_app (fs gs : list UrgencyFactor) :
  total (fs ++ gs) = total fs + total gs.
Proof.
  induction fs as [|f fs IH]; simpl; [reflexivity|].
  rewrite IH. lia.
Qed.

Lemma total_sentimentRule (s : Q) :
  total (sentimentRule s) = sentimentAdjustment s.
Proof.
  unfold sentimentRule, sentimentAdjustment.
  destruct (Qltb s (-1 # 2)); [reflexivity|].
  destruct (Qltb s (-3 # 10)); [reflexivity|].
  destruct (Qltb (1 # 2) s); reflexivity.
Qed.

Lemma total_intentRule (c : IntentCategory) :
  total (intentRule c) = intentAdjustment c.
Proof. destruct c; reflexivity. Qed.

Lemma total_customerValueRule (v : CustomerValue) :
  total (customerValueRule v) = customerValueAdjustment v.
Proof. destruct v; reflexivity. Qed.

Lemma total_repeatContactRule (w : RepeatWindow) :
  total (repeatContactRule w) = repeatContactAdjustment w.
Proof. destruct w; reflexivity. Qed.

Lemma total_timeSensitivityRule (kw ah : bool) :
  total (timeSensitivityRule kw ah) = timeSensitivityAdjustment kw ah.
Proof. destruct kw, ah; reflexivity. Qed.

Lemma total_appliedRules (ctx : UrgencyContext) :
  total (appliedRules ctx) = adjustments ctx.
Proof.
  unfold appliedRules, adjustments.
  rewrite !total_app, total_sentimentRule, total_intentRule,
    total_customerValueRule, total_repeatContactRule,
    total_timeSensitivityRule.
  lia.
Qed.

Lemma sentimentAdjustment_range (s : Q) : -1 <= sentimentAdjustment s <= 2.
Proof.
  unfold sentimentAdjustment.
  destruct (Qltb s (-1 # 2)); [lia|].
  destruct (Qltb s (-3 # 10)); [lia|].
  destruct (Qltb (1 # 2) s); lia.
Qed.

Lemma adjustments_range (ctx : UrgencyContext) : -1 <= adjustments ctx <= 12.
Proof.
  unfold adjustments.
  pose proof (sentimentAdjustment_range (SentimentResult.score (sentiment ctx))).
  generalize dependent (sentimentAdjustment (SentimentResult.score (sentiment ctx))).
  intros sa Hsa.
  destruct (category (primaryIntent (intent ctx)));
    destruct (customerValue (customerProfile ctx));
    destruct (repeatWindow ctx);
    destruct (urgencyKeywords ctx); destruct (afterHours ctx);
    unfold timeSensitivityAdjustment; simpl; lia.
Qed.

(** The lower bound of the clamp is never reached from below: the score is
    the raw total cut at 10. *)
Lemma score_min (ctx : UrgencyContext) :
  score (predictUrgency ctx) = Z.min 10 (BaseScore + adjustments ctx).
Proof.
  simpl. rewrite total_appliedRules.
  pose proof (adjustments_range ctx).
  unfold clamp, BaseScore. lia.
Qed.

(** The strict comparison of the scorer decides the order of the
    rationals. *)
Lemma Qltb_decides (x y : Q) :
  Qltb x y = if Qlt_le_dec x y then true else false.
Proof.
  unfold Qltb.
  destruct (Qlt_le_dec x y) as [Hlt|Hle];
    destruct (Qle_bool y x) eqn:E; simpl; try reflexivity.
  - apply Qle_bool_iff in E. exfalso. exact (Qlt_not_le _ _ Hlt E).
  - apply Qle_bool_iff in Hle. congruence.
Qed.

Lemma total_contributions (fs : list UrgencyFactor) :
  total fs = fold_right Z.add 0 (map contribution fs).
Proof.
  induction fs as [|f fs IH]; simpl; [reflexivity|].
  rewrite IH. reflexivity.
Qed.

(** C1: for every input bundle the Urgency Predictor returns
    score = max(1, min(10, 5 + the sum of the applicable adjustments)):
    sentiment below -0.5 +2, else below -0.3 +1, else above 0.5 -1;
    escalation +3, complaint +2, request +1, inquiry and feedback 0;
    vip +2, high +1, medium and low 0; same issue within 7 days +2, within
    30 days +1; urgency keywords +2, after hours +1.  The same sum is that
    of the contributions of the recorded factors, and the score lies in
    [1,10]. *)
Theorem predictUrgency_score_clamped_sum (ctx : UrgencyContext) :
  score (predictUrgency ctx)
  = Z.max 1
      (Z.min 10
         (5 + ((if Qlt_le_dec (SentimentResult.score (sentiment ctx)) (-1 # 2)
                then 2
                else if Qlt_le_dec (SentimentResult.score (sentiment ctx))
                          (-3 # 10)
                then 1
                else if Qlt_le_dec (1 # 2)
                          (SentimentResult.score (sentiment ctx))
                then -1
                else 0)
               + match category (primaryIntent (intent ctx)) with
                 | ESCALATION => 3
                 | COMPLAINT => 2
                 | REQUEST => 1
                 | INQUIRY => 0
                 | FEEDBACK => 0
                 end
               + match customerValue (customerProfile ctx) with
                 | vip => 2
                 | high => 1
                 | medium => 0
                 | low => 0
                 end
               + match repeatWindow ctx with
                 | Within7Days => 2
                 | Within30Days => 1
                 | NoRepeat => 0
                 end
               + ((if urgencyKeywords ctx then 2 else 0)
                  + (if afterHours ctx then 1 else 0)))))
  /\ score (predictUrgency ctx)
     = Z.max 1
         (Z.min 10
            (5 + fold_right Z.add 0
                   (map contribution (factors (predictUrgency ctx)))))
  /\ 1 <= score (predictUrgency ctx) <= 10.
Proof.
  assert (Hscore : score (predictUrgency ctx)
                   = Z.max 1 (Z.min 10 (5 + adjustments ctx))).
  { simpl. rewrite total_appliedRules. unfold clamp, BaseScore. lia. }
  split; [|split].
  - rewrite Hscore. unfold adjustments, sentimentAdjustment.
    rewrite !Qltb_decides.
    destruct (Qlt_le_dec (SentimentResult.score (sentiment ctx)) (-1 # 2));
      destruct (Qlt_le_dec (SentimentResult.score (sentiment ctx)) (-3 # 10));
      destruct (Qlt_le_dec (1 # 2) (SentimentResult.score (sentiment ctx)));
      reflexivity.
  - rewrite <- total_contributions. simpl factors.
    rewrite Hscore, total_appliedRules. reflexivity.
  - rewrite Hscore. lia.
Qed.

(** The concrete scenario of the design: sentiment -0.6, complaint,
    high-value customer gives 5 + 2 + 2 + 1 = 10. *)
Example score_scenario :
  score (predictUrgency
           (Samples.context (-6 # 10) COMPLAINT high NoRepeat false false)) = 10.
Proof. reflexivity. Qed.

Example score_neutral :
  score (predictUrgency
           (Samples.context (0 # 1) INQUIRY medium NoRepeat false false)) = 5.
Proof. reflexivity. Qed.

Example score_saturated :
  score (predictUrgency
           (Samples.context (-9 # 10) ESCALATION vip Within7Days true true)) = 10.
Proof. reflexivity. Qed.

End ScorerFacts.

Module FactorsFacts.

Import Scorer ScorerFacts Factors.

(** Inputs that differ in one factor have totals that differ by that
    factor's adjustments. *)
Lemma adjustments_differOnlyIn (k : Factor) (a b : UrgencyContext) :
  differOnlyIn k a b ->
  adjustments a - adjustments b = adjustmentOf k a - adjustmentOf k b.
Proof.
  unfold adjustments.
  destruct k; simpl; unfold sentimentOf, categoryOf, valueOf.
  - intros (_ & -> & -> & -> & -> & ->). lia.
  - intros (_ & -> & -> & -> & -> & ->). lia.
  - intros (_ & -> & -> & -> & -> & ->). lia.
  - intros (_ & -> & -> & -> & -> & ->). lia.
Qed.

Lemma adjustments_vipTwin (a b : UrgencyContext) :
  vipTwin a b ->
  adjustments a
  = adjustments b + (2 - customerValueAdjustment (valueOf b)).
Proof.
  unfold adjustments, vipTwin, sentimentOf, categoryOf, valueOf.
  intros (-> & _ & -> & -> & -> & -> & ->). simpl. lia.
Qed.

Lemma customerValueAdjustment_range (v : CustomerValue) :
  0 <= customerValueAdjustment v <= 2.
Proof. destruct v; simpl; lia. Qed.

(** C8, as stated, fails: an inquiry and a feedback message that are
    otherwise identical differ only in intent category and get the same
    score; and two inputs whose totals both exceed 10 get the score 10
    with and without the time-sensitivity keywords. *)
Lemma same_score_inquiry_feedback :
  (differOnlyIn IntentFactor
     (Samples.context (0 # 1) INQUIRY medium NoRepeat false false)
     (Samples.context (0 # 1) FEEDBACK medium NoRepeat false false)
   /\ ~ (score (predictUrgency
                  (Samples.context (0 # 1) INQUIRY medium NoRepeat false false))
         <> score (predictUrgency
                     (Samples.context (0 # 1) FEEDBACK medium NoRepeat
                        false false))))
  /\ (differOnlyIn KeywordFactor
        (Samples.context (-6 # 10) ESCALATION vip NoRepeat true false)
        (Samples.context (-6 # 10) ESCALATION vip NoRepeat false false)
      /\ ~ (score (predictUrgency
                     (Samples.context (-6 # 10) ESCALATION vip NoRepeat
                        true false))
            <> score (predictUrgency
                        (Samples.context (-6 # 10) ESCALATION vip NoRepeat
                           false false)))).
Proof.
  split; split.
  - simpl. repeat split; try reflexivity. discriminate.
  - intros H. apply H. reflexivity.
  - simpl. repeat split; try reflexivity. discriminate.
  - intros H. apply H. reflexivity.
Qed.

(** C8, amended: for inputs that differ only in sentiment, only in intent
    category, only in customer value or only in the time-sensitivity
    keywords, the scores differ exactly when the adjustments of that factor
    differ and at least one of the totals 5 + adjustments is below the
    upper bound 10 of the clamp; and each factor has a pair of such inputs
    whose scores differ. *)
Theorem one_factor_changes_score (k : Factor) (a b : UrgencyContext)
    (Hab : differOnlyIn k a b) :
  (score (predictUrgency a) <> score (predictUrgency b)
   <-> adjustmentOf k a <> adjustmentOf k b
       /\ (5 + adjustments a < 10 \/ 5 + adjustments b < 10))
  /\ exists a' b',
       differOnlyIn k a' b'
       /\ score (predictUrgency a') <> score (predictUrgency b').
Proof.
  split.
  - rewrite !score_min. unfold BaseScore.
    pose proof (adjustments_differOnlyIn k a b Hab).
    lia.
  - destruct k.
    + exists (Samples.context (-6 # 10) INQUIRY medium NoRepeat false false),
        (Samples.context (0 # 1) INQUIRY medium NoRepeat false false).
      split; [|discriminate].
      simpl. repeat split; try reflexivity. discriminate.
    + exists (Samples.context (0 # 1) COMPLAINT medium NoRepeat false false),
        (Samples.context (0 # 1) INQUIRY medium NoRepeat false false).
      split; [|discriminate].
      simpl. repeat split; try reflexivity. discriminate.
    + exists (Samples.context (0 # 1) INQUIRY vip NoRepeat false false),
        (Samples.context (0 # 1) INQUIRY low NoRepeat false false).
      split; [|discriminate].
      simpl. repeat split; try reflexivity. discriminate.
    + exists (Samples.context (0 # 1) INQUIRY medium NoRepeat true false),
        (Samples.context (0 # 1) INQUIRY medium NoRepeat false false).
      split; [|discriminate].
      simpl. repeat split; try reflexivity. discriminate.
Qed.

Lemma one_factor_changes_score_witness :
  differOnlyIn SentimentFactor
    (Samples.context (-6 # 10) COMPLAINT high NoRepeat false false)
    (Samples.context (6 # 10) COMPLAINT high NoRepeat false false)
  /\ score (predictUrgency
              (Samples.context (-6 # 10) COMPLAINT high NoRepeat false false))
     <> score (predictUrgency
                 (Samples.context (6 # 10) COMPLAINT high NoRepeat false false)).
Proof.
  assert (H : differOnlyIn SentimentFactor
    (Samples.context (-6 # 10) COMPLAINT high NoRepeat false false)
    (Samples.context (6 # 10) COMPLAINT high NoRepeat false false)).
  { simpl. repeat split; try reflexivity. discriminate. }
  split; [exact H|].
  apply (proj1 (one_factor_changes_score _ _ _ H)).
  split; [discriminate | right; reflexivity].
Defined.

(** C9, as stated, fails: against a high-value profile the VIP score is
    only 1 higher, and at the upper bound of the clamp it is not higher at
    all. *)
Lemma vip_boost_below_two :
  (vipTwin (Samples.context (0 # 1) INQUIRY vip NoRepeat false false)
           (Samples.context (0 # 1) INQUIRY high NoRepeat false false)
   /\ ~ (score (predictUrgency
                  (Samples.context (0 # 1) INQUIRY vip NoRepeat false false))
         >= score (predictUrgency
                     (Samples.context (0 # 1) INQUIRY high NoRepeat
                        false false)) + 2))
  /\ (vipTwin (Samples.context (-6 # 10) ESCALATION vip NoRepeat false false)
              (Samples.context (-6 # 10) ESCALATION low NoRepeat false false)
      /\ ~ (score (predictUrgency
                     (Samples.context (-6 # 10) ESCALATION vip NoRepeat
                        false false))
            >= score (predictUrgency
                        (Samples.context (-6 # 10) ESCALATION low NoRepeat
                           false false)) + 2)).
Proof.
  split; (split; [|vm_compute; intros H; apply H; reflexivity]).
  - unfold vipTwin. simpl. repeat split; try reflexivity. discriminate.
  - unfold vipTwin. simpl. repeat split; try reflexivity. discriminate.
Qed.

(** C9, amended: the score of a VIP profile is the score of the otherwise
    identical non-VIP input plus 2 less the non-VIP profile's own
    adjustment (0 for medium and low, 1 for high), cut at 10; it is never
    below the non-VIP score. *)
Theorem vip_boost (a b : UrgencyContext) (Hab : vipTwin a b) :
  score (predictUrgency a)
  = Z.min 10 (score (predictUrgency b)
              + (2 - customerValueAdjustment
                       (customerValue (customerProfile b))))
  /\ score (predictUrgency b) <= score (predictUrgency a).
Proof.
  rewrite !score_min. unfold BaseScore.
  pose proof (adjustments_vipTwin a b Hab) as Hadj.
  pose proof (customerValueAdjustment_range (valueOf b)) as Hv.
  unfold valueOf in *.
  lia.
Qed.

Lemma vip_boost_witness :
  vipTwin (Samples.context (0 # 1) REQUEST vip NoRepeat false false)
          (Samples.context (0 # 1) REQUEST medium NoRepeat false false)
  /\ score (predictUrgency
              (Samples.context (0 # 1) REQUEST vip NoRepeat false false))
     = Z.min 10 (score (predictUrgency
                          (Samples.context (0 # 1) REQUEST medium NoRepeat
                             false false)) + (2 - 0)).
Proof.
  assert (H : vipTwin
    (Samples.context (0 # 1) REQUEST vip NoRepeat false false)
    (Samples.context (0 # 1) REQUEST medium NoRepeat false false)).
  { unfold vipTwin. simpl. repeat split; try reflexivity. discriminate. }
  split; [exact H|].
  exact (proj1 (vip_boost _ _ H)).
Defined.

End FactorsFacts.

(** ** Routing Engine *)

Module RoutingFacts.

Import Routing.

Lemma Qltb_lt (x y : Q) : Scorer.Qltb x y = true <-> (x < y)%Q.
Proof.
  unfold Scorer.Qltb. rewrite negb_true_iff.
  split.
  - intros H. apply Qnot_le_lt. intros Hle.
    apply Qle_bool_iff in Hle. congruence.
  - intros H. destruct (Qle_bool y x) eqn:E; [|reflexivity].
    apply Qle_bool_iff in E. exfalso. exact (Qlt_not_le _ _ H E).
Qed.

(** The decision is "automate" exactly when step 1 finds automation
    appropriate. *)
Lemma routeConversation_automate (i : IntentResult) (u : UrgencyScore)
    (r : AgentRequirements.t) (directory : list Agent) (w : Z) :
  RoutingDecision.decision (routeConversation i u r directory w) = automate
  <-> automationAppropriate i u = true.
Proof.
  unfold routeConversation.
  destruct (automationAppropriate i u); simpl.
  - split; reflexivity.
  - destruct (Matcher.findBestAgent r directory); simpl;
      split; discriminate.
Qed.

(** C2: a conversation whose urgency score is greater than 8 is never
    routed to "automate"; the decision is "assign_agent" or "queue". *)
Theorem high_urgency_never_automated (i : IntentResult) (u : UrgencyScore)
    (r : AgentRequirements.t) (directory : list Agent) (w : Z)
    (Hu : score u > 8) :
  RoutingDecision.decision (routeConversation i u r directory w) <> automate
  /\ (RoutingDecision.decision (routeConversation i u r directory w)
      = assign_agent
      \/ RoutingDecision.decision (routeConversation i u r directory w)
         = queue).
Proof.
  assert (Hno : automationAppropriate i u = false).
  { unfold automationAppropriate.
    replace (score u <? 8) with false by (symmetry; apply Z.ltb_ge; lia).
    apply andb_false_r. }
  split.
  - rewrite routeConversation_automate, Hno. discriminate.
  - unfold routeConversation. rewrite Hno.
    destruct (Matcher.findBestAgent r directory); simpl; auto.
Qed.

Lemma high_urgency_never_automated_witness :
  score (Scorer.predictUrgency
           (Samples.context (-6 # 10) COMPLAINT high NoRepeat false false)) > 8
  /\ RoutingDecision.decision
       (routeConversation (Samples.intentWith (95 # 100))
          (Scorer.predictUrgency
             (Samples.context (-6 # 10) COMPLAINT high NoRepeat false false))
          (Samples.requirements None) Samples.roster 30)
     <> automate.
Proof.
  split; [reflexivity|].
  apply (high_urgency_never_automated (Samples.intentWith (95 # 100))
           (Scorer.predictUrgency
              (Samples.context (-6 # 10) COMPLAINT high NoRepeat false false))
           (Samples.requirements None) Samples.roster 30).
  reflexivity.
Defined.

(** C10: a message whose intent confidence exceeds 0.85 and whose urgency
    score is below 8 is routed to "automate"; the routing logic consults
    nothing else, so this holds for every message that also matches a known
    automation pattern. *)
Theorem high_confidence_automation (i : IntentResult) (u : UrgencyScore)
    (r : AgentRequirements.t) (directory : list Agent) (w : Z)
    (Hc : (85 # 100 < confidence i)%Q) (Hu : score u < 8) :
  RoutingDecision.decision (routeConversation i u r directory w) = automate.
Proof.
  apply routeConversation_automate.
  unfold automationAppropriate.
  apply andb_true_intro. split.
  - apply Qltb_lt. exact Hc.
  - apply Z.ltb_lt. exact Hu.
Qed.

Lemma high_confidence_automation_witness :
  (85 # 100 < confidence (Samples.intentWith (9 # 10)))%Q
  /\ score (Scorer.predictUrgency
              (Samples.context (0 # 1) INQUIRY medium NoRepeat false false)) < 8
  /\ RoutingDecision.decision
       (routeConversation (Samples.intentWith (9 # 10))
          (Scorer.predictUrgency
             (Samples.context (0 # 1) INQUIRY medium NoRepeat false false))
          (Samples.requirements None) Samples.roster 30)
     = automate.
Proof.
  split; [reflexivity|]. split; [reflexivity|].
  apply high_confidence_automation; reflexivity.
Defined.

(** The boundary: a score of exactly 8 is not automated either. *)
Example score_8_not_automated :
  RoutingDecision.decision
    (routeConversation (Samples.intentWith (95 # 100))
       {| score := 8; factors := []; reasoning := "" |}
       (Samples.requirements None) Samples.roster 30)
  = assign_agent.
Proof. reflexivity. Qed.

End RoutingFacts.

(** ** Agent Matcher *)

Module MatcherFacts.

Import Matcher.

Lemma top_In (best : Agent) (rest : list Agent) :
  In (top best rest) (best :: rest).
Proof.
  revert best.
  induction rest as [|a rest IH]; intros best; simpl.
  - left. reflexivity.
  - destruct (IH (if better a best then a else best)) as [H|H].
    + destruct (better a best); rewrite <- H; auto.
    + right. right. exact H.
Qed.

Lemma topCandidate_In (l : list Agent) (a : Agent) :
  topCandidate l = Some a -> In a l.
Proof.
  destruct l as [|b rest]; simpl; [discriminate|].
  intros [= <-]. apply top_In.
Qed.

Lemma preferred_eligible (r : AgentRequirements.t) (directory : list Agent)
    (a : Agent) :
  preferred r directory = Some a -> In a directory /\ eligible r a = true.
Proof.
  unfold preferred.
  destruct (AgentRequirements.preferredAgentId r) as [pid|]; [|discriminate].
  destruct (find _ directory) as [b|] eqn:Hfind; [|discriminate].
  destruct (eligible r b) eqn:Hel; [|discriminate].
  intros [= <-]. split; [|exact Hel].
  apply find_some in Hfind. tauto.
Qed.

(** Whatever the matcher returns is an eligible agent of the snapshot. *)
Lemma findBestAgent_eligible (r : AgentRequirements.t)
    (directory : list Agent) (a : Agent) :
  findBestAgent r directory = Some a ->
  In a directory /\ eligible r a = true.
Proof.
  unfold findBestAgent.
  destruct (preferred r directory) as [b|] eqn:Hp.
  - intros [= <-]. exact (preferred_eligible _ _ _ Hp).
  - intros H. apply topCandidate_In in H.
    apply filter_In in H. exact H.
Qed.

Lemma eligible_underCap (r : AgentRequirements.t) (a : Agent) :
  eligible r a = true -> currentWorkload a < maxWorkload a.
Proof.
  unfold eligible, underCap. intros H.
  apply andb_prop in H as [H _]. apply andb_prop in H as [H _].
  apply andb_prop in H as [_ H]. apply Z.ltb_lt. exact H.
Qed.

(** The concrete scenario of the design: A is full, C has the higher
    performance; with B preferred and eligible, B is selected. *)
Example matcher_selects_C :
  option_map agentId (findBestAgent (Samples.requirements None) Samples.roster)
  = Some "C".
Proof. reflexivity. Qed.

Example matcher_prefers_B :
  option_map agentId
    (findBestAgent (Samples.requirements (Some "B")) Samples.roster)
  = Some "B".
Proof. reflexivity. Qed.

Example matcher_skips_full_preferred :
  option_map agentId
    (findBestAgent (Samples.requirements (Some "A")) Samples.roster)
  = Some "C".
Proof. reflexivity. Qed.

End MatcherFacts.

(** ** Priority Queue *)

Module QueueFacts.

Import QueueEntry PriorityQueue.

Lemma string_leb_trans (a b c : string) :
  String.leb a b = true -> String.leb b c = true -> String.leb a c = true.
Proof.
  unfold String.leb.
  destruct (String.compare a b) eqn:Hab; [| |discriminate].
  - apply String.compare_eq_iff in Hab. subst b. tauto.
  - destruct (String.compare b c) eqn:Hbc; [| |discriminate]; intros _ _.
    + apply String.compare_eq_iff in Hbc. subst c. rewrite Hab. reflexivity.
    + replace (String.compare a c) with Lt; [reflexivity|].
      symmetry. apply String_as_OT.cmp_lt.
      apply String_as_OT.lt_trans with b; apply String_as_OT.cmp_lt; assumption.
Qed.

(** The boolean order decides the spelled-out one. *)
Lemma before_servedBefore (a b : QueueEntry.t) :
  before a b = true <-> servedBefore a b.
Proof.
  unfold before, compareKey, servedBefore, String.leb.
  destruct (Z.compare_spec (urgencyScore b) (urgencyScore a)) as [Hs|Hs|Hs];
    destruct (Z.compare_spec (enqueueTime a) (enqueueTime b)) as [Ht|Ht|Ht];
    destruct (String.compare (conversationId a) (conversationId b));
    split; intros H; try discriminate H; try reflexivity;
    try (left; lia); try (right; split; [lia|]; left; lia);
    try (right; split; [lia|]; right; split; [lia|reflexivity]);
    exfalso; intuition (try lia; try discriminate).
Qed.

Lemma servedBefore_total (a b : QueueEntry.t) :
  servedBefore a b \/ servedBefore b a.
Proof.
  unfold servedBefore.
  destruct (String.leb_total (conversationId a) (conversationId b)) as [H|H];
    rewrite H;
    destruct (Z.compare_spec (urgencyScore a) (urgencyScore b));
    destruct (Z.compare_spec (enqueueTime a) (enqueueTime b));
    intuition lia.
Qed.

Lemma servedBefore_trans (a b c : QueueEntry.t) :
  servedBefore a b -> servedBefore b c -> servedBefore a c.
Proof.
  unfold servedBefore.
  intros [H1|[H1 [H2|[H2 H3]]]] [K1|[K1 [K2|[K2 K3]]]];
    try (left; lia); right; (split; [lia|]);
    try (left; lia).
  right. split; [lia|]. eapply string_leb_trans; eassumption.
Qed.

Lemma before_false (a b : QueueEntry.t) :
  before a b = false -> servedBefore b a.
Proof.
  intros H. destruct (servedBefore_total a b) as [Hab|Hba]; [|exact Hba].
  apply before_servedBefore in Hab. congruence.
Qed.

(** [select] returns an entry that is served before all the others, and
    loses none. *)
Lemma select_spec (q : list QueueEntry.t) :
  forall e h others,
    select e q = (h, others) ->
    Permutation (e :: q) (h :: others) /\ Forall (servedBefore h) others.
Proof.
  induction q as [|x q IH]; intros e h others; simpl.
  - intros [= <- <-]. split; [reflexivity|constructor].
  - destruct (before e x) eqn:Hex.
    + destruct (select e q) as [h' o'] eqn:Hsel. intros [= <- <-].
      destruct (IH _ _ _ Hsel) as [Hp Hall].
      assert (Hh : servedBefore h' e).
      { assert (Hmem : In e (h' :: o'))
          by (eapply Permutation_in; [exact Hp|left; reflexivity]).
        destruct Hmem as [->|Hmem].
        - destruct (servedBefore_total e e); assumption.
        - rewrite List.Forall_forall in Hall. apply Hall. exact Hmem. }
      split.
      * rewrite perm_swap. rewrite Hp. apply perm_swap.
      * constructor; [|exact Hall].
        apply servedBefore_trans with e; [exact Hh|].
        apply before_servedBefore. exact Hex.
    + destruct (select x q) as [h' o'] eqn:Hsel. intros [= <- <-].
      destruct (IH _ _ _ Hsel) as [Hp Hall].
      assert (Hh : servedBefore h' x).
      { assert (Hmem : In x (h' :: o'))
          by (eapply Permutation_in; [exact Hp|left; reflexivity]).
        destruct Hmem as [->|Hmem].
        - destruct (servedBefore_total x x); assumption.
        - rewrite List.Forall_forall in Hall. apply Hall. exact Hmem. }
      split.
      * rewrite Hp. apply perm_swap.
      * constructor; [|exact Hall].
        apply servedBefore_trans with x; [exact Hh|].
        apply before_false. exact Hex.
Qed.

Lemma dequeueMany_In (n : nat) :
  forall q x, In x (dequeueMany n q) -> In x q.
Proof.
  induction n as [|n IH]; intros q x; [simpl; tauto|].
  destruct q as [|e q]; [simpl; tauto|].
  cbn [dequeueMany dequeueHighest].
  destruct (select e q) as [h others] eqn:Hsel.
  destruct (select_spec _ _ _ _ Hsel) as [Hp _].
  intros Hin.
  eapply Permutation_in; [symmetry; exact Hp|].
  destruct Hin as [<-|Hin]; [left; reflexivity|].
  right. apply IH. exact Hin.
Qed.

Lemma dequeueMany_sorted (n : nat) :
  forall q, StronglySorted servedBefore (dequeueMany n q).
Proof.
  induction n as [|n IH]; intros q; simpl; [constructor|].
  destruct q as [|e q]; simpl; [constructor|].
  destruct (select e q) as [h others] eqn:Hsel.
  destruct (select_spec _ _ _ _ Hsel) as [_ Hall].
  constructor; [apply IH|].
  apply List.Forall_forall. intros x Hx.
  apply dequeueMany_In in Hx.
  rewrite List.Forall_forall in Hall. apply Hall. exact Hx.
Qed.

Lemma dequeueMany_all (n : nat) :
  forall q, length q = n -> Permutation (dequeueMany n q) q.
Proof.
  induction n as [|n IH]; intros q Hlen.
  - destruct q; [reflexivity|discriminate].
  - destruct q as [|e q]; [discriminate|]. simpl.
    destruct (select e q) as [h others] eqn:Hsel.
    destruct (select_spec _ _ _ _ Hsel) as [Hp _].
    rewrite Hp. constructor. apply IH.
    apply Permutation_length in Hp. simpl in Hp, Hlen. lia.
Qed.

Lemma before_later (a b : string) (s t t' : Z) :
  t < t' -> before (entry a s t) (entry b s t') = true.
Proof.
  intros H. apply before_servedBefore. right. simpl. split; [reflexivity|].
  left. exact H.
Qed.

Lemma before_lower (a b : string) (s s' t t' : Z) :
  s > s' -> before (entry a s t) (entry b s' t') = true.
Proof. intros H. apply before_servedBefore. left. exact H. Qed.

(** C3: whatever the queue holds, any number of successive dequeueHighest
    calls returns entries in the order of the key (urgencyScore descending,
    then enqueueTime ascending, then conversationId), and as many calls as
    there are entries return all of them; entries with scores 9, 9, 6
    enqueued in the order X, Y, Z are dequeued in the order X, Y, Z. *)
Theorem dequeue_order (q : list QueueEntry.t) (n : nat)
    (x y z : string) (tx ty tz : Z)
    (Hxy : tx < ty) (Hyz : ty < tz)
    (Hids : x <> y /\ x <> z /\ y <> z) :
  StronglySorted servedBefore (dequeueMany n q)
  /\ Permutation (dequeueMany (length q) q) q
  /\ exists q3,
       enqueueAll [entry x 9 tx; entry y 9 ty; entry z 6 tz] [] = Ok q3
       /\ dequeueMany 3 q3 = [entry x 9 tx; entry y 9 ty; entry z 6 tz].
Proof.
  split; [apply dequeueMany_sorted|].
  split; [apply dequeueMany_all; reflexivity|].
  destruct Hids as (Hxy' & Hxz' & Hyz').
  exists [entry x 9 tx; entry y 9 ty; entry z 6 tz].
  split.
  - unfold enqueueAll, enqueue, holds. simpl.
    apply String.eqb_neq in Hxy', Hxz', Hyz'.
    rewrite Hxy'. simpl. rewrite Hxz', Hyz'. reflexivity.
  - cbn [dequeueMany dequeueHighest select].
    rewrite (before_later x y 9 tx ty Hxy).
    cbn [select].
    rewrite (before_lower x z 9 6 tx tz) by lia.
    cbn [dequeueMany dequeueHighest select].
    rewrite (before_lower y z 9 6 ty tz) by lia.
    reflexivity.
Qed.

Lemma dequeue_order_witness :
  (1 < 2 /\ 2 < 3)
  /\ StronglySorted servedBefore
       (dequeueMany 2 [entry "Z" 6 3; entry "Y" 9 2; entry "X" 9 1])
  /\ dequeueMany 3 [entry "X" 9 1; entry "Y" 9 2; entry "Z" 6 3]
     = [entry "X" 9 1; entry "Y" 9 2; entry "Z" 6 3].
Proof.
  split; [split; reflexivity|].
  destruct (dequeue_order [entry "Z" 6 3; entry "Y" 9 2; entry "X" 9 1] 2
              "X" "Y" "Z" 1 2 3) as (Hsorted & _ & q3 & Henq & Hdeq).
  - reflexivity.
  - reflexivity.
  - repeat split; discriminate.
  - split; [exact Hsorted|].
    injection Henq as <-. exact Hdeq.
Defined.

Example dequeue_reversed_arrival :
  dequeueMany 3 [entry "Z" 6 3; entry "Y" 9 2; entry "X" 9 1]
  = [entry "X" 9 1; entry "Y" 9 2; entry "Z" 6 3].
Proof. reflexivity. Qed.

Example dequeue_tie_on_id :
  dequeueMany 2 [entry "b" 9 1; entry "a" 9 1]
  = [entry "a" 9 1; entry "b" 9 1].
Proof. reflexivity. Qed.

Example dequeue_after_reprioritize :
  dequeueMany 1
    (reprioritize "Z" 10 [entry "X" 9 1; entry "Y" 9 2; entry "Z" 6 3])
  = [entry "Z" 10 3].
Proof. reflexivity. Qed.

Example enqueue_duplicate :
  enqueue (entry "X" 4 7) [entry "X" 9 1] = Err DuplicateEntry.
Proof. reflexivity. Qed.

Example dequeue_empty : dequeueHighest [] = Err Empty.
Proof. reflexivity. Qed.

End QueueFacts.

(** ** Escalation State Machine *)

Module EscalationFacts.

Import Escalation.

Lemma transition_not_automated (s : State) (e : Event) :
  s <> Automated -> transition s e <> Automated.
Proof. destruct s, e; simpl; congruence. Qed.

Lemma run_not_automated (events : list Event) :
  forall s, s <> Automated -> run s events <> Automated.
Proof.
  induction events as [|e events IH]; intros s Hs; simpl; [exact Hs|].
  apply IH. apply transition_not_automated. exact Hs.
Qed.

Lemma run_app (s : State) (es es' : list Event) :
  run s (es ++ es') = run (run s es) es'.
Proof. unfold run. apply fold_left_app. Qed.

(** C6: once a conversation has reached Escalated, no sequence of
    transitions takes it back to Automated. *)
Theorem escalated_never_automated (s0 : State) (earlier later : list Event)
    (Hesc : run s0 earlier = Escalated) :
  run s0 (earlier ++ later) <> Automated.
Proof.
  rewrite run_app, Hesc.
  apply run_not_automated. discriminate.
Qed.

Lemma escalated_never_automated_witness :
  run Automated [Evaluate (Samples.signals true 0 5 (0 # 1))] = Escalated
  /\ run Automated
       ([Evaluate (Samples.signals true 0 5 (0 # 1))]
        ++ [AssignmentSuccess; AgentDisconnect;
            Evaluate (Samples.signals false 0 2 (0 # 1));
            AssignmentSuccess; ResolutionMarked; Inactive24h])
     <> Automated.
Proof.
  split; [reflexivity|].
  apply escalated_never_automated. reflexivity.
Defined.

(** C7: a conversation in Automated (hence without resolution) whose
    automationAttempts have reached 3 is moved to Escalated by the next
    evaluation of the state machine. *)
Theorem third_attempt_escalates (sig : Signals.t)
    (Hattempts : 3 <= Signals.automationAttempts sig) :
  transition Automated (Evaluate sig) = Escalated.
Proof.
  simpl. unfold mustEscalate.
  replace (3 <=? Signals.automationAttempts sig) with true
    by (symmetry; apply Z.leb_le; exact Hattempts).
  rewrite orb_true_r. reflexivity.
Qed.

Lemma third_attempt_escalates_witness :
  3 <= Signals.automationAttempts (Samples.signals false 3 5 (0 # 1))
  /\ transition Automated (Evaluate (Samples.signals false 3 5 (0 # 1)))
     = Escalated.
Proof.
  split; [discriminate|].
  apply third_attempt_escalates. discriminate.
Defined.

Example two_attempts_stay_automated :
  transition Automated (Evaluate (Samples.signals false 2 5 (0 # 1)))
  = Automated.
Proof. reflexivity. Qed.

Example urgency_9_escalates :
  transition Automated (Evaluate (Samples.signals false 0 9 (0 # 1)))
  = Escalated.
Proof. reflexivity. Qed.

Example sentiment_drop_escalates :
  transition Automated (Evaluate (Samples.signals false 0 5 (4 # 10)))
  = Escalated.
Proof. reflexivity. Qed.

End EscalationFacts.

(** ** Assignment Coordinator *)

Module CoordinatorFacts.

Import Coordinator.

(** A successful assign found the conversation assignable and the agent
    under its cap, and leaves the conversation Assigned to that agent. *)
Lemma assign_ok (cid aid : string) (σ σ' : System) :
  assign cid aid σ = (Ok tt, σ') ->
  exists c a,
    conversations σ !! cid = Some c
    /\ assignable (Conversation.state c) = true
    /\ agents σ !! aid = Some a
    /\ currentWorkload a < maxWorkload a
    /\ σ' = {| agents := <[aid := addWorkload 1 a]> (agents σ);
               conversations :=
                 <[cid := moveTo Assigned (Some aid) c]> (conversations σ);
               queue := PriorityQueue.remove cid (queue σ) |}.
Proof.
  unfold assign.
  destruct (conversations σ !! cid) as [c|] eqn:Hc; [|discriminate].
  destruct (assignable (Conversation.state c)) eqn:Hs; [|discriminate].
  destruct (agents σ !! aid) as [a|] eqn:Ha; [|discriminate].
  destruct (currentWorkload a <? maxWorkload a) eqn:Hw; [|discriminate].
  intros [= <-]. exists c, a.
  apply Z.ltb_lt in Hw. auto 6.
Qed.

(** A failed call returns the system it was given. *)
Lemma assign_err (cid aid : string) (σ σ' : System) (e : AssignError) :
  assign cid aid σ = (Err e, σ') -> σ' = σ.
Proof.
  unfold assign.
  destruct (conversations σ !! cid) as [c|]; [|congruence].
  destruct (assignable (Conversation.state c)); [|congruence].
  destruct (agents σ !! aid) as [a|]; [|congruence].
  destruct (currentWorkload a <? maxWorkload a); congruence.
Qed.

(** After a successful assign the same call is refused. *)
Lemma assign_not_repeatable (cid aid : string) (σ σ' : System) :
  assign cid aid σ = (Ok tt, σ') ->
  assign cid aid σ' = (Err AlreadyAssigned, σ').
Proof.
  intros H. apply assign_ok in H as (c & a & _ & _ & _ & _ & ->).
  unfold assign. simpl. rewrite lookup_insert_eq. reflexivity.
Qed.

(** C5: when the conversation is in an assignable state and the agent is
    under its cap, the first assign succeeds, setting the conversation to
    Assigned and raising the agent's workload by one, and a second assign
    for the same pair fails with AlreadyAssigned and leaves the system as
    the first call left it. *)
Theorem assign_twice (σ : System) (cid aid : string)
    (c : Conversation.t) (a : Agent)
    (Hc : conversations σ !! cid = Some c)
    (Hs : assignable (Conversation.state c) = true)
    (Ha : agents σ !! aid = Some a)
    (Hw : currentWorkload a < maxWorkload a) :
  exists σ',
    assign cid aid σ = (Ok tt, σ')
    /\ assign cid aid σ' = (Err AlreadyAssigned, σ')
    /\ conversations σ' !! cid = Some (moveTo Assigned (Some aid) c)
    /\ agents σ' !! aid = Some (addWorkload 1 a).
Proof.
  eexists. split; [|split; [|split]].
  - unfold assign. rewrite Hc, Hs, Ha.
    replace (currentWorkload a <? maxWorkload a) with true
      by (symmetry; apply Z.ltb_lt; exact Hw).
    reflexivity.
  - unfold assign. simpl. rewrite lookup_insert_eq. reflexivity.
  - simpl. apply lookup_insert_eq.
  - simpl. apply lookup_insert_eq.
Qed.

Lemma assign_twice_witness :
  exists σ',
    assign "conv-1" "B" Samples.system = (Ok tt, σ')
    /\ assign "conv-1" "B" σ' = (Err AlreadyAssigned, σ')
    /\ conversations σ' !! "conv-1"
       = Some (moveTo Assigned (Some "B") (Samples.conversation "conv-1" Queued))
    /\ agents σ' !! "B" = Some (addWorkload 1 (Samples.agent "B" 4 (9 # 10))).
Proof.
  apply (assign_twice Samples.system "conv-1" "B"
           (Samples.conversation "conv-1" Queued)
           (Samples.agent "B" 4 (9 # 10))).
  - reflexivity.
  - reflexivity.
  - reflexivity.
  - reflexivity.
Defined.

(** The workload cap is kept by each operation. *)
Lemma assign_capRespected (cid aid : string) (σ : System) :
  capRespected σ -> capRespected (snd (assign cid aid σ)).
Proof.
  intros Hcap.
  destruct (assign cid aid σ) as [[[]|e] σ'] eqn:H; simpl.
  - apply assign_ok in H as (c & a & _ & _ & Ha & Hw & ->).
    intros aid' a'. simpl. rewrite lookup_insert_Some.
    intros [[_ <-]|[_ Hother]].
    + simpl. lia.
    + exact (Hcap _ _ Hother).
  - apply assign_err in H. subst σ'. exact Hcap.
Qed.

Lemma release_capRespected (cid : string) (r : ReleaseReason) (σ : System) :
  capRespected σ -> capRespected (snd (release cid r σ)).
Proof.
  intros Hcap. unfold release.
  destruct (conversations σ !! cid) as [c|]; [|exact Hcap].
  destruct (Conversation.state c); try exact Hcap.
  destruct (Conversation.assignedAgentId c) as [aid|]; [|exact Hcap].
  intros aid' a'. simpl. rewrite lookup_alter_Some.
  intros [(_ & b & Hb & ->)|[_ Hother]].
  - pose proof (Hcap _ _ Hb). simpl. lia.
  - exact (Hcap _ _ Hother).
Qed.

Lemma perform_capRespected (σ : System) (op : Op) :
  capRespected σ -> capRespected (perform σ op).
Proof.
  destruct op; simpl.
  - apply assign_capRespected.
  - apply release_capRespected.
Qed.

Lemma runOps_capRespected (ops : list Op) :
  forall σ, capRespected σ -> capRespected (runOps σ ops).
Proof.
  induction ops as [|op ops IH]; intros σ Hcap; simpl; [exact Hcap|].
  apply IH. apply perform_capRespected. exact Hcap.
Qed.

(** No operation of the coordinator puts a conversation into Automated. *)
Lemma perform_not_automated (σ : System) (op : Op) (cid : string)
    (c' : Conversation.t) :
  conversations (perform σ op) !! cid = Some c' ->
  Conversation.state c' = Automated ->
  conversations σ !! cid = Some c'.
Proof.
  destruct op as [cid0 aid|cid0 r]; simpl.
  - destruct (assign cid0 aid σ) as [[[]|e] σ'] eqn:H; simpl.
    + apply assign_ok in H as (c & a & _ & _ & _ & _ & ->). simpl.
      rewrite lookup_insert_Some. intros [[_ <-]|[_ Hother]]; [|auto].
      discriminate.
    + apply assign_err in H. subst σ'. auto.
  - unfold release.
    destruct (conversations σ !! cid0) as [c|]; [|auto].
    destruct (Conversation.state c); auto.
    destruct (Conversation.assignedAgentId c) as [aid|]; [|auto].
    simpl. rewrite lookup_insert_Some. intros [[_ <-]|[_ Hother]]; [|auto].
    destruct r; discriminate.
Qed.

(** C4: from a system in which every agent's currentWorkload is at most
    maxWorkload, every run of assign and release operations reaches a
    system with the same property; an agent selected by the matcher has
    currentWorkload below maxWorkload; and an assign in the reached system
    either fails or found the agent below its cap at commit time. *)
Theorem workload_never_exceeds_cap (σ0 : System) (ops : list Op)
    (r : AgentRequirements.t) (directory : list Agent) (selected : Agent)
    (cid aid : string)
    (Hinit : capRespected σ0)
    (Hsel : Matcher.findBestAgent r directory = Some selected) :
  capRespected (runOps σ0 ops)
  /\ (In selected directory
      /\ currentWorkload selected < maxWorkload selected)
  /\ (fst (assign cid aid (runOps σ0 ops)) <> Ok tt
      \/ exists a, agents (runOps σ0 ops) !! aid = Some a
                   /\ currentWorkload a < maxWorkload a).
Proof.
  split; [|split].
  - apply runOps_capRespected. exact Hinit.
  - apply MatcherFacts.findBestAgent_eligible in Hsel as [Hin Hel].
    split; [exact Hin|].
    exact (MatcherFacts.eligible_underCap _ _ Hel).
  - destruct (assign cid aid (runOps σ0 ops)) as [[[]|e] σ'] eqn:H; simpl.
    + right. apply assign_ok in H as (c & a & _ & _ & Ha & Hw & _).
      exists a. auto.
    + left. discriminate.
Qed.

Lemma workload_never_exceeds_cap_witness :
  capRespected
    (runOps Samples.system
       [OpAssign "conv-1" "B"; OpAssign "conv-1" "B";
        OpRelease "conv-1" AgentFailure; OpAssign "conv-1" "B"])
  /\ (In (Samples.agent "C" 0 (95 # 100)) Samples.roster
      /\ currentWorkload (Samples.agent "C" 0 (95 # 100))
         < maxWorkload (Samples.agent "C" 0 (95 # 100)))
  /\ (fst (assign "conv-1" "B"
             (runOps Samples.system
                [OpAssign "conv-1" "B"; OpAssign "conv-1" "B";
                 OpRelease "conv-1" AgentFailure; OpAssign "conv-1" "B"]))
      <> Ok tt
      \/ exists a,
           agents
             (runOps Samples.system
                [OpAssign "conv-1" "B"; OpAssign "conv-1" "B";
                 OpRelease "conv-1" AgentFailure; OpAssign "conv-1" "B"])
           !! "B" = Some a
           /\ currentWorkload a < maxWorkload a).
Proof.
  apply (workload_never_exceeds_cap Samples.system _
           (Samples.requirements None) Samples.roster).
  - intros aid a. unfold Samples.system. simpl.
    rewrite lookup_singleton_Some. intros [_ <-]. discriminate.
  - reflexivity.
Defined.

(** An agent at its cap is refused at commit time, and the system is left
    as it was. *)
Example assign_full_agent :
  assign "conv-1" "B"
    {| agents := {[ "B" := Samples.agent "B" 5 (9 # 10) ]};
       conversations := conversations Samples.system;
       queue := queue Samples.system |}
  = (Err AlreadyAtCapacity,
     {| agents := {[ "B" := Samples.agent "B" 5 (9 # 10) ]};
        conversations := conversations Samples.system;
        queue := queue Samples.system |}).
Proof. reflexivity. Qed.

Example assign_raises_workload :
  option_map currentWorkload
    (agents (runOps Samples.system [OpAssign "conv-1" "B"]) !! "B") = Some 5.
Proof. reflexivity. Qed.

Example assign_removes_queue_entry :
  queue (runOps Samples.system [OpAssign "conv-1" "B"]) = [].
Proof. reflexivity. Qed.

Example release_lowers_workload :
  option_map currentWorkload
    (agents (runOps Samples.system
               [OpAssign "conv-1" "B"; OpRelease "conv-1" Resolution]) !! "B")
  = Some 4.
Proof. reflexivity. Qed.

End CoordinatorFacts.

(** * Further properties of the design *)

(** ** Urgency Predictor: bounds and monotonicity *)

Module ScorerExtras.

Import Scorer ScorerFacts Updates.

Lemma Qltb_ge (x y : Q) : Qltb x y = false <-> (y <= x)%Q.
Proof.
  unfold Qltb. rewrite negb_false_iff. apply Qle_bool_iff.
Qed.

Lemma Qltb_true (x y : Q) : Qltb x y = true <-> (x < y)%Q.
Proof.
  unfold Qltb. rewrite negb_true_iff. split.
  - intros H. apply Qnot_le_lt. intros Hle.
    apply Qle_bool_iff in Hle. congruence.
  - intros H. destruct (Qle_bool y x) eqn:E; [|reflexivity].
    apply Qle_bool_iff in E. lra.
Qed.

(** The bands of the sentiment table. *)
Lemma sentimentAdjustment_bands (s : Q) :
  ((s < -1 # 2)%Q /\ sentimentAdjustment s = 2)
  \/ ((-1 # 2 <= s)%Q /\ (s < -3 # 10)%Q /\ sentimentAdjustment s = 1)
  \/ ((-3 # 10 <= s)%Q /\ (s <= 1 # 2)%Q /\ sentimentAdjustment s = 0)
  \/ ((1 # 2 < s)%Q /\ sentimentAdjustment s = -1).
Proof.
  unfold sentimentAdjustment.
  destruct (Qltb s (-1 # 2)) eqn:E1.
  { apply Qltb_true in E1. left. auto. }
  apply Qltb_ge in E1.
  destruct (Qltb s (-3 # 10)) eqn:E2.
  { apply Qltb_true in E2. right. left. auto. }
  apply Qltb_ge in E2.
  destruct (Qltb (1 # 2) s) eqn:E3.
  { apply Qltb_true in E3. right. right. right. auto. }
  apply Qltb_ge in E3. right. right. left. auto.
Qed.

Lemma sentimentAdjustment_antitone (s1 s2 : Q) :
  (s1 <= s2)%Q -> sentimentAdjustment s2 <= sentimentAdjustment s1.
Proof.
  intros Hle.
  destruct (sentimentAdjustment_bands s1)
    as [[? ->]|[(? & ? & ->)|[(? & ? & ->)|[? ->]]]];
    destruct (sentimentAdjustment_bands s2)
      as [[? ->]|[(? & ? & ->)|[(? & ? & ->)|[? ->]]]];
    try lia; exfalso; lra.
Qed.

(** X1: the score is never below 4, so the scores 1, 2 and 3 of the
    announced range are never produced; it is 4 exactly for a message with
    sentiment above 0.5, intent inquiry or feedback, a medium or low value
    customer, no repeat contact, no urgency keyword, in business hours. *)
Theorem score_at_least_4 (ctx : UrgencyContext) :
  4 <= score (predictUrgency ctx)
  /\ (score (predictUrgency ctx) = 4
      <-> (1 # 2 < SentimentResult.score (sentiment ctx))%Q
          /\ (category (primaryIntent (intent ctx)) = INQUIRY
              \/ category (primaryIntent (intent ctx)) = FEEDBACK)
          /\ (customerValue (customerProfile ctx) = medium
              \/ customerValue (customerProfile ctx) = low)
          /\ repeatWindow ctx = NoRepeat
          /\ urgencyKeywords ctx = false
          /\ afterHours ctx = false).
Proof.
  rewrite score_min. unfold BaseScore, adjustments, timeSensitivityAdjustment.
  destruct (sentimentAdjustment_bands (SentimentResult.score (sentiment ctx)))
    as [[Hs ->]|[(Hs & Hs' & ->)|[(Hs & Hs' & ->)|[Hs ->]]]];
    destruct (category (primaryIntent (intent ctx)));
    destruct (customerValue (customerProfile ctx));
    destruct (repeatWindow ctx);
    destruct (urgencyKeywords ctx); destruct (afterHours ctx);
    simpl; (split; [lia|]);
    (split;
     [ intros H; try (exfalso; lia); repeat split; auto
     | intros (H1 & [H2|H2] & [H3|H3] & H4 & H5 & H6);
       try discriminate; try reflexivity; exfalso; lra ]).
Qed.

(** X2: a more negative sentiment never lowers the urgency score, all
    other signals being the same. *)
Theorem sentiment_never_lowers (ctx : UrgencyContext)
    (s1 s2 : SentimentResult.t)
    (Hle : (SentimentResult.score s1 <= SentimentResult.score s2)%Q) :
  score (predictUrgency (withSentiment s2 ctx))
  <= score (predictUrgency (withSentiment s1 ctx)).
Proof.
  rewrite !score_min. unfold BaseScore, adjustments. simpl.
  pose proof (sentimentAdjustment_antitone _ _ Hle).
  lia.
Qed.

Lemma sentiment_never_lowers_witness :
  score (predictUrgency
           (withSentiment
              {| SentimentResult.score := 2 # 10;
                 SentimentResult.label := POSITIVE |}
              (Samples.context (0 # 1) REQUEST medium NoRepeat false false)))
  <= score (predictUrgency
              (withSentiment
                 {| SentimentResult.score := -7 # 10;
                    SentimentResult.label := VERY_NEGATIVE |}
                 (Samples.context (0 # 1) REQUEST medium NoRepeat false false))).
Proof.
  apply sentiment_never_lowers. simpl. discriminate.
Defined.

(** X3: a sentiment score below -0.5 raises the score by 2 over the same
    message with a sentiment that gets no adjustment (between -0.3 and
    0.5), up to the upper bound 10. *)
Theorem negative_sentiment_boost (ctx : UrgencyContext)
    (s n : SentimentResult.t)
    (Hneg : (SentimentResult.score s < -1 # 2)%Q)
    (Hlo : (-3 # 10 <= SentimentResult.score n)%Q)
    (Hhi : (SentimentResult.score n <= 1 # 2)%Q) :
  score (predictUrgency (withSentiment s ctx))
  = Z.min 10 (score (predictUrgency (withSentiment n ctx)) + 2).
Proof.
  rewrite !score_min. unfold BaseScore, adjustments. simpl.
  destruct (sentimentAdjustment_bands (SentimentResult.score s))
    as [[_ ->]|[(? & ? & _)|[(? & ? & _)|[? _]]]]; try (exfalso; lra).
  destruct (sentimentAdjustment_bands (SentimentResult.score n))
    as [[? _]|[(? & ? & _)|[(_ & _ & ->)|[? _]]]]; try (exfalso; lra).
  lia.
Qed.

Lemma negative_sentiment_boost_witness :
  score (predictUrgency
           (withSentiment
              {| SentimentResult.score := -8 # 10;
                 SentimentResult.label := VERY_NEGATIVE |}
              (Samples.context (0 # 1) REQUEST medium NoRepeat false false)))
  = Z.min 10
      (score (predictUrgency
                (withSentiment
                   {| SentimentResult.score := 1 # 10;
                      SentimentResult.label := NEUTRAL |}
                   (Samples.context (0 # 1) REQUEST medium NoRepeat
                      false false))) + 2).
Proof.
  apply negative_sentiment_boost; simpl.
  - reflexivity.
  - discriminate.
  - discriminate.
Defined.

(** X4: a repeat contact about the same issue within 7 days scores 2 more
    than the same message as a first contact, and within 30 days 1 more,
    up to the upper bound 10. *)
Theorem repeat_contact_boost (ctx : UrgencyContext) :
  score (predictUrgency (withRepeatWindow Within7Days ctx))
  = Z.min 10 (score (predictUrgency (withRepeatWindow NoRepeat ctx)) + 2)
  /\ score (predictUrgency (withRepeatWindow Within30Days ctx))
     = Z.min 10 (score (predictUrgency (withRepeatWindow NoRepeat ctx)) + 1).
Proof.
  rewrite !score_min. unfold BaseScore, adjustments. simpl.
  pose proof (adjustments_range (withRepeatWindow NoRepeat ctx)) as H.
  unfold adjustments in H. simpl in H.
  lia.
Qed.

End ScorerExtras.

(** ** Routing Engine: scoring and routing together *)

Module RoutingExtras.

Import Scorer ScorerFacts ScorerExtras Routing RoutingFacts Matcher MatcherFacts.

(** A message scored by the Urgency Predictor passes step 1 of the routing
    logic exactly when its confidence exceeds 0.85 and its adjustments add
    up to at most 2. *)
Lemma automationAppropriate_scored (ctx : UrgencyContext) :
  automationAppropriate (intent ctx) (predictUrgency ctx) = true
  <-> (85 # 100 < confidence (intent ctx))%Q /\ adjustments ctx <= 2.
Proof.
  unfold automationAppropriate.
  rewrite andb_true_iff, Qltb_true, Z.ltb_lt, score_min.
  pose proof (adjustments_range ctx).
  unfold BaseScore. intuition lia.
Qed.

(** X5: a message scored by the Urgency Predictor is routed to "automate"
    only if its intent confidence exceeds 0.85 and its adjustments add up
    to at most 2; a message whose adjustments add up to 3 or more goes to
    an agent or to the queue. *)
Theorem automated_only_if_small_adjustments (ctx : UrgencyContext)
    (r : AgentRequirements.t) (directory : list Agent) (w : Z)
    (Hauto : RoutingDecision.decision
               (routeConversation (intent ctx) (predictUrgency ctx)
                  r directory w)
             = automate) :
  (85 # 100 < confidence (intent ctx))%Q /\ adjustments ctx <= 2.
Proof.
  apply automationAppropriate_scored.
  apply routeConversation_automate in Hauto. exact Hauto.
Qed.

Lemma automated_only_if_small_adjustments_witness :
  (85 # 100
   < confidence
       (intent (Samples.context (0 # 1) REQUEST medium NoRepeat false true)))%Q
  /\ adjustments (Samples.context (0 # 1) REQUEST medium NoRepeat false true)
     <= 2.
Proof.
  apply (automated_only_if_small_adjustments
           (Samples.context (0 # 1) REQUEST medium NoRepeat false true)
           (Samples.requirements None) Samples.roster 30).
  reflexivity.
Defined.

(** X6: a message whose intent is ESCALATION is routed to "automate" only
    if its sentiment is above 0.5, the customer value is medium or low, it
    is no repeat contact, carries no urgency keyword and arrives in
    business hours; with any of these missing it goes to an agent or to
    the queue. *)
Theorem escalation_intent_automated_only_if (ctx : UrgencyContext)
    (r : AgentRequirements.t) (directory : list Agent) (w : Z)
    (Hesc : category (primaryIntent (intent ctx)) = ESCALATION)
    (Hauto : RoutingDecision.decision
               (routeConversation (intent ctx) (predictUrgency ctx)
                  r directory w)
             = automate) :
  (1 # 2 < SentimentResult.score (sentiment ctx))%Q
  /\ (customerValue (customerProfile ctx) = medium
      \/ customerValue (customerProfile ctx) = low)
  /\ repeatWindow ctx = NoRepeat
  /\ urgencyKeywords ctx = false
  /\ afterHours ctx = false.
Proof.
  apply routeConversation_automate, automationAppropriate_scored in Hauto.
  destruct Hauto as [_ Hadj]. revert Hadj.
  unfold adjustments, timeSensitivityAdjustment. rewrite Hesc.
  destruct (sentimentAdjustment_bands (SentimentResult.score (sentiment ctx)))
    as [[Hs ->]|[(Hs & Hs' & ->)|[(Hs & Hs' & ->)|[Hs ->]]]];
    destruct (customerValue (customerProfile ctx));
    destruct (repeatWindow ctx);
    destruct (urgencyKeywords ctx); destruct (afterHours ctx);
    simpl; intros H; try (exfalso; lia); repeat split; auto.
Qed.

Lemma escalation_intent_automated_only_if_witness :
  (1 # 2
   < SentimentResult.score
       (sentiment
          (Samples.context (8 # 10) ESCALATION low NoRepeat false false)))%Q
  /\ (customerValue
        (customerProfile
           (Samples.context (8 # 10) ESCALATION low NoRepeat false false))
      = medium
      \/ customerValue
           (customerProfile
              (Samples.context (8 # 10) ESCALATION low NoRepeat false false))
         = low)
  /\ repeatWindow
       (Samples.context (8 # 10) ESCALATION low NoRepeat false false)
     = NoRepeat
  /\ urgencyKeywords
       (Samples.context (8 # 10) ESCALATION low NoRepeat false false)
     = false
  /\ afterHours
       (Samples.context (8 # 10) ESCALATION low NoRepeat false false)
     = false.
Proof.
  apply (escalation_intent_automated_only_if
           (Samples.context (8 # 10) ESCALATION low NoRepeat false false)
           (Samples.requirements None) Samples.roster 30).
  - reflexivity.
  - reflexivity.
Defined.

(** The matcher finds no agent exactly when the snapshot has no eligible
    agent. *)
Lemma findBestAgent_None (r : AgentRequirements.t) (directory : list Agent) :
  findBestAgent r directory = None
  <-> forall a, In a directory -> eligible r a = false.
Proof.
  unfold findBestAgent. split.
  - destruct (preferred r directory); [discriminate|].
    intros H a Hin.
    destruct (eligible r a) eqn:Hel; [|reflexivity].
    assert (Hf : In a (List.filter (eligible r) directory))
      by (apply filter_In; auto).
    destruct (List.filter (eligible r) directory); [contradiction|discriminate].
  - intros Hnone.
    destruct (preferred r directory) as [a|] eqn:Hp.
    + apply preferred_eligible in Hp as [Hin Hel].
      rewrite (Hnone _ Hin) in Hel. discriminate.
    + destruct (List.filter (eligible r) directory) as [|a l] eqn:Hf;
        [reflexivity|].
      assert (Hin : In a (List.filter (eligible r) directory))
        by (rewrite Hf; left; reflexivity).
      apply filter_In in Hin as [Hin Hel].
      rewrite (Hnone _ Hin) in Hel. discriminate.
Qed.

(** X7: a conversation is queued exactly when automation is not
    appropriate and no agent of the directory is available with the
    required skills, the language and workload below the cap; the decision
    then carries the wait time to announce. *)
Theorem queued_iff_no_agent (i : IntentResult) (u : UrgencyScore)
    (r : AgentRequirements.t) (directory : list Agent) (w : Z) :
  (RoutingDecision.decision (routeConversation i u r directory w) = queue
   <-> automationAppropriate i u = false
       /\ forall a, In a directory -> eligible r a = false)
  /\ (RoutingDecision.estimatedWaitTime (routeConversation i u r directory w)
      = Some w
      <-> RoutingDecision.decision (routeConversation i u r directory w)
          = queue).
Proof.
  rewrite <- findBestAgent_None.
  unfold routeConversation.
  destruct (automationAppropriate i u); simpl.
  - split; split; try discriminate. intros [H _]. discriminate.
  - destruct (findBestAgent r directory); simpl;
      split; split; try discriminate; auto.
    intros [_ H]. discriminate.
Qed.

(** X8: when the decision is "assign_agent", the agent it names is an agent
    of the directory that is available, has every required skill, speaks
    the required language and has currentWorkload below maxWorkload. *)
Theorem assigned_agent_qualifies (i : IntentResult) (u : UrgencyScore)
    (r : AgentRequirements.t) (directory : list Agent) (w : Z)
    (Hassign : RoutingDecision.decision (routeConversation i u r directory w)
               = assign_agent) :
  exists a,
    In a directory
    /\ RoutingDecision.agentId (routeConversation i u r directory w)
       = Some (agentId a)
    /\ status a = available
    /\ (forall s, In s (AgentRequirements.skills r) -> In s (skills a))
    /\ In (AgentRequirements.language r) (languages a)
    /\ currentWorkload a < maxWorkload a.
Proof.
  revert Hassign. unfold routeConversation.
  destruct (automationAppropriate i u); [discriminate|].
  destruct (findBestAgent r directory) as [a|] eqn:Hfind; [|discriminate].
  intros _. exists a.
  apply findBestAgent_eligible in Hfind as [Hin Hel].
  split; [exact Hin|]. split; [reflexivity|].
  pose proof (eligible_underCap _ _ Hel) as Hcap.
  unfold eligible in Hel.
  apply andb_prop in Hel as [Hel Hlang].
  apply andb_prop in Hel as [Hel Hskills].
  apply andb_prop in Hel as [Hav _].
  split; [|split; [|split; [|exact Hcap]]].
  - unfold isAvailable in Hav. destruct (status a); congruence.
  - intros s Hs. unfold hasSkills in Hskills.
    rewrite forallb_forall in Hskills. specialize (Hskills s Hs).
    apply existsb_exists in Hskills as (s' & Hin' & Heq).
    apply String.eqb_eq in Heq. subst s'. exact Hin'.
  - unfold speaks in Hlang.
    apply existsb_exists in Hlang as (l & Hin' & Heq).
    apply String.eqb_eq in Heq. subst l. exact Hin'.
Qed.

Lemma assigned_agent_qualifies_witness :
  exists a,
    In a Samples.roster
    /\ RoutingDecision.agentId
         (routeConversation (Samples.intentWith (5 # 10))
            {| score := 9; factors := []; reasoning := "" |}
            (Samples.requirements None) Samples.roster 30)
       = Some (agentId a)
    /\ status a = available
    /\ (forall s, In s (AgentRequirements.skills (Samples.requirements None))
                  -> In s (skills a))
    /\ In (AgentRequirements.language (Samples.requirements None))
          (languages a)
    /\ currentWorkload a < maxWorkload a.
Proof.
  apply assigned_agent_qualifies. reflexivity.
Defined.

End RoutingExtras.

(** ** Agent Matcher: continuity and ranking *)

Module MatcherExtras.

Import Scorer ScorerExtras Matcher MatcherFacts.

Lemma find_by_id (directory : list Agent) (a : Agent) :
  List.NoDup (map agentId directory) ->
  In a directory ->
  find (fun b => String.eqb (agentId b) (agentId a)) directory = Some a.
Proof.
  induction directory as [|b directory IH]; simpl; [tauto|].
  intros Hnd [->|Hin].
  - rewrite String.eqb_refl. reflexivity.
  - inversion Hnd as [|? ? Hnotin Hnd']; subst.
    destruct (String.eqb (agentId b) (agentId a)) eqn:E.
    + apply String.eqb_eq in E. exfalso. apply Hnotin.
      rewrite E. apply in_map. exact Hin.
    + apply IH; assumption.
Qed.

(** X9: continuity preference: when agent ids are unique in the directory
    and the preferred agent is available, qualified and under the workload
    cap, the matcher selects that agent, whatever the other agents'
    performance. *)
Theorem preferred_agent_selected (r : AgentRequirements.t)
    (directory : list Agent) (a : Agent)
    (Hpref : AgentRequirements.preferredAgentId r = Some (agentId a))
    (Hin : In a directory)
    (Hids : List.NoDup (map agentId directory))
    (Hel : eligible r a = true) :
  findBestAgent r directory = Some a.
Proof.
  unfold findBestAgent, preferred.
  rewrite Hpref, (find_by_id _ _ Hids Hin), Hel. reflexivity.
Qed.

Lemma preferred_agent_selected_witness :
  findBestAgent (Samples.requirements (Some "B")) Samples.roster
  = Some (Samples.agent "B" 2 (9 # 10)).
Proof.
  apply preferred_agent_selected.
  - reflexivity.
  - right. left. reflexivity.
  - repeat constructor; simpl; intuition discriminate.
  - reflexivity.
Defined.

Lemma better_performance (a b : Agent) :
  (if better a b
   then (performanceScore b <= performanceScore a)%Q
   else (performanceScore a <= performanceScore b)%Q).
Proof.
  unfold better.
  destruct (Qltb (performanceScore b) (performanceScore a)) eqn:E1; simpl.
  - apply Qltb_true in E1. lra.
  - apply Qltb_ge in E1.
    destruct (Qeq_bool (performanceScore a) (performanceScore b)) eqn:E2;
      simpl; [|exact E1].
    apply Qeq_bool_eq in E2.
    destruct ((currentWorkload a <? currentWorkload b)
              || (currentWorkload a =? currentWorkload b)
                 && (idleSince a <? idleSince b)); lra.
Qed.

Lemma top_performance (rest : list Agent) :
  forall best b,
    In b (best :: rest) ->
    (performanceScore b <= performanceScore (top best rest))%Q.
Proof.
  induction rest as [|a rest IH]; intros best b Hin.
  - destruct Hin as [<-|[]]. simpl. lra.
  - simpl. pose proof (better_performance a best) as Hcmp.
    destruct (better a best).
    + destruct Hin as [<-|[<-|Hin]].
      * pose proof (IH a a (or_introl eq_refl)). lra.
      * apply IH. left. reflexivity.
      * apply IH. right. exact Hin.
    + destruct Hin as [<-|[<-|Hin]].
      * apply IH. left. reflexivity.
      * pose proof (IH best best (or_introl eq_refl)). lra.
      * apply IH. right. exact Hin.
Qed.

(** X10: when no preferred agent is taken, the selected agent has the
    highest performance score among the agents of the directory that are
    available, qualified and under the workload cap. *)
Theorem best_performance_selected (r : AgentRequirements.t)
    (directory : list Agent) (a b : Agent)
    (Hnopref : preferred r directory = None)
    (Hsel : findBestAgent r directory = Some a)
    (Hin : In b directory)
    (Hel : eligible r b = true) :
  (performanceScore b <= performanceScore a)%Q.
Proof.
  unfold findBestAgent in Hsel. rewrite Hnopref in Hsel.
  assert (Hb : In b (List.filter (eligible r) directory))
    by (apply filter_In; auto).
  destruct (List.filter (eligible r) directory) as [|c l]; [discriminate|].
  simpl in Hsel. injection Hsel as <-.
  apply top_performance. exact Hb.
Qed.

Lemma best_performance_selected_witness :
  (performanceScore (Samples.agent "B" 2 (9 # 10))
   <= performanceScore (Samples.agent "C" 0 (95 # 100)))%Q.
Proof.
  apply (best_performance_selected (Samples.requirements None) Samples.roster).
  - reflexivity.
  - reflexivity.
  - right. left. reflexivity.
  - reflexivity.
Defined.

End MatcherExtras.

(** ** Intent Classifier: review flag *)

Module ClassifierExtras.

Import Scorer ScorerExtras Routing RoutingFacts IntentClassifier.

(** X13: a classification flagged for human review (confidence below 0.70)
    is never routed to "automate". *)
Theorem flagged_never_automated (primary : Intent) (conf : Q)
    (u : UrgencyScore) (r : AgentRequirements.t) (directory : list Agent)
    (w : Z)
    (Hflag : requiresHumanReview (classified primary conf) = true) :
  RoutingDecision.decision
    (routeConversation (classified primary conf) u r directory w)
  <> automate.
Proof.
  rewrite routeConversation_automate.
  unfold automationAppropriate. simpl in *.
  unfold flagForReview in Hflag. apply Qltb_true in Hflag.
  replace (Qltb (85 # 100) conf) with false; [discriminate|].
  symmetry. apply Qltb_ge. lra.
Qed.

Lemma flagged_never_automated_witness :
  RoutingDecision.decision
    (routeConversation
       (classified {| category := INQUIRY; intentConfidence := 6 # 10 |}
          (6 # 10))
       {| score := 5; factors := []; reasoning := "" |}
       (Samples.requirements None) Samples.roster 30)
  <> automate.
Proof.
  apply flagged_never_automated. reflexivity.
Defined.

End ClassifierExtras.

(** ** Ranking: intents and recommended actions *)

Module RankingFacts.

Import Scorer ScorerExtras.

Section Ranked.

Variable A : Type.
Variable key : A -> Q.

Lemma insertRanked_perm (x : A) (l : list A) :
  Permutation (insertRanked key x l) (x :: l).
Proof.
  induction l as [|y l IH]; simpl; [reflexivity|].
  destruct (Qltb (key x) (key y)); [|reflexivity].
  rewrite IH. apply perm_swap.
Qed.

Lemma insertRanked_sorted (x : A) (l : list A) :
  StronglySorted (above key) l -> StronglySorted (above key) (insertRanked key x l).
Proof.
  induction l as [|y l IH]; intros Hs; simpl.
  - constructor; constructor.
  - inversion Hs as [|? ? Hs' Hall]; subst.
    destruct (Qltb (key x) (key y)) eqn:E.
    + apply Qltb_true in E.
      constructor; [apply IH; exact Hs'|].
      apply List.Forall_forall. intros z Hz.
      apply (Permutation_in _ (insertRanked_perm x l)) in Hz.
      destruct Hz as [<-|Hz].
      * unfold above. lra.
      * rewrite List.Forall_forall in Hall. apply Hall. exact Hz.
    + apply Qltb_ge in E.
      constructor; [exact Hs|].
      constructor; [exact E|].
      apply List.Forall_forall. intros z Hz.
      rewrite List.Forall_forall in Hall. specialize (Hall z Hz).
      unfold above in *. lra.
Qed.

Lemma rank_perm (l : list A) : Permutation (rank key l) l.
Proof.
  induction l as [|x l IH]; simpl; [reflexivity|].
  rewrite insertRanked_perm. constructor. exact IH.
Qed.

Lemma rank_sorted (l : list A) : StronglySorted (above key) (rank key l).
Proof.
  induction l as [|x l IH]; simpl; [constructor|].
  apply insertRanked_sorted. exact IH.
Qed.

Lemma sorted_app_above (l1 l2 : list A) :
  StronglySorted (above key) (l1 ++ l2) ->
  forall x y, In x l1 -> In y l2 -> above key x y.
Proof.
  induction l1 as [|z l1 IH]; simpl; intros Hs x y Hx Hy; [contradiction|].
  inversion Hs as [|? ? Hs' Hall]; subst.
  destruct Hx as [<-|Hx].
  - rewrite List.Forall_forall in Hall. apply Hall.
    apply in_or_app. right. exact Hy.
  - exact (IH Hs' x y Hx Hy).
Qed.

Lemma sorted_app_l (l1 l2 : list A) :
  StronglySorted (above key) (l1 ++ l2) -> StronglySorted (above key) l1.
Proof.
  induction l1 as [|z l1 IH]; simpl; intros Hs; [constructor|].
  inversion Hs as [|? ? Hs' Hall]; subst.
  constructor; [exact (IH Hs')|].
  apply List.Forall_forall. intros x Hx.
  rewrite List.Forall_forall in Hall. apply Hall.
  apply in_or_app. left. exact Hx.
Qed.

End Ranked.

(** X14: the ranked intents are the detected intents, none lost and none
    added, in descending order of confidence. *)
Theorem rankIntents_descending (detected : list Intent) :
  StronglySorted
    (fun x y => (intentConfidence y <= intentConfidence x)%Q)
    (IntentClassifier.rankIntents detected)
  /\ Permutation (IntentClassifier.rankIntents detected) detected.
Proof.
  split.
  - apply (rank_sorted Intent intentConfidence).
  - apply rank_perm.
Qed.

(** X15: the recommender returns at most 3 actions (all of them when there
    are fewer than 3 candidates), in descending order of confidence; they
    are candidates, and no candidate left out has a higher confidence than
    a returned one. *)
Theorem top_three_recommendations (candidates : list ActionRecommendation.t) :
  length (Recommender.getRecommendations candidates)
  = Nat.min 3 (length candidates)
  /\ StronglySorted
       (fun x y => (ActionRecommendation.confidence y
                    <= ActionRecommendation.confidence x)%Q)
       (Recommender.getRecommendations candidates)
  /\ exists leftOut,
       Permutation (Recommender.getRecommendations candidates ++ leftOut)
         candidates
       /\ forall x y,
            In x (Recommender.getRecommendations candidates) ->
            In y leftOut ->
            (ActionRecommendation.confidence y
             <= ActionRecommendation.confidence x)%Q.
Proof.
  unfold Recommender.getRecommendations.
  pose proof (rank_sorted _ ActionRecommendation.confidence candidates) as Hs.
  pose proof (rank_perm _ ActionRecommendation.confidence candidates) as Hp.
  rewrite <- (firstn_skipn 3) in Hs.
  split; [|split].
  - rewrite length_firstn, (Permutation_length Hp). reflexivity.
  - exact (sorted_app_l _ _ _ _ Hs).
  - exists (skipn 3 (rank ActionRecommendation.confidence candidates)).
    split.
    + rewrite firstn_skipn. exact Hp.
    + exact (sorted_app_above _ _ _ _ Hs).
Qed.

Example top_three_sample :
  map ActionRecommendation.actionId
    (Recommender.getRecommendations MoreSamples.candidates)
  = ["refund"; "followup"; "reply"].
Proof. reflexivity. Qed.

End RankingFacts.

(** ** Retries with exponential backoff *)

Module IngestionFacts.

Import Ingestion.

Lemma backoffDelay_succ (n : nat) : backoffDelay (S n) = 2 * backoffDelay n.
Proof.
  unfold backoffDelay. rewrite Nat2Z.inj_succ, Z.pow_succ_r by lia.
  reflexivity.
Qed.

Lemma backoffDelay_pos (n : nat) : 0 < backoffDelay n.
Proof. unfold backoffDelay. apply Z.pow_pos_nonneg; lia. Qed.

Lemma attempts_processed (succeeds : nat -> bool) (budget : nat) :
  forall n k,
    outcome (attempts succeeds n budget) = Processed k ->
    (n <= k < n + budget)%nat
    /\ succeeds k = true
    /\ (forall j, (n <= j < k)%nat -> succeeds j = false)
    /\ failureLog (attempts succeeds n budget) = seq n (k - n)
    /\ totalDelay (attempts succeeds n budget)
       = backoffDelay k - backoffDelay n.
Proof.
  induction budget as [|budget IH]; intros n k; simpl; [discriminate|].
  destruct (succeeds n) eqn:Hn; simpl.
  - intros [= <-]. rewrite Nat.sub_diag. simpl.
    repeat split; try lia; auto; intros j Hj; lia.
  - intros Hk. destruct (IH _ _ Hk) as (Hrange & Hok & Hfail & Hlog & Hdelay).
    split; [lia|]. split; [exact Hok|]. split; [|split].
    + intros j Hj. destruct (Nat.eq_dec j n) as [->|Hne]; [exact Hn|].
      apply Hfail. lia.
    + rewrite Hlog. replace (k - n)%nat with (S (k - S n)) by lia.
      reflexivity.
    + rewrite Hdelay. destruct budget as [|budget]; [lia|].
      rewrite backoffDelay_succ. lia.
Qed.

Lemma attempts_deadLettered (succeeds : nat -> bool) (budget : nat) :
  forall n,
    outcome (attempts succeeds n budget) = DeadLettered ->
    (forall j, (n <= j < n + budget)%nat -> succeeds j = false)
    /\ failureLog (attempts succeeds n budget) = seq n budget
    /\ totalDelay (attempts succeeds n budget)
       = match budget with
         | O => 0
         | S b => backoffDelay (n + b) - backoffDelay n
         end.
Proof.
  induction budget as [|budget IH]; intros n; simpl.
  - intros _. repeat split. intros j Hj. lia.
  - destruct (succeeds n) eqn:Hn; simpl; [discriminate|].
    intros Hd. destruct (IH _ Hd) as (Hfail & Hlog & Hdelay).
    split; [|split].
    + intros j Hj. destruct (Nat.eq_dec j n) as [->|Hne]; [exact Hn|].
      apply Hfail. lia.
    + rewrite Hlog. reflexivity.
    + rewrite Hdelay. destruct budget as [|budget].
      * rewrite Nat.add_0_r. lia.
      * replace (n + S budget)%nat with (S n + budget)%nat by lia.
        rewrite backoffDelay_succ. lia.
Qed.

(** X16: an ingestion is processed at the first attempt that goes through,
    provided it is one of the first 5, and goes to the dead letter queue
    exactly when the 5 attempts all fail; there is no sixth attempt. *)
Theorem ingest_outcome (succeeds : nat -> bool) (k : nat) :
  (outcome (ingest succeeds) = Processed k
   <-> (1 <= k <= 5)%nat /\ succeeds k = true
       /\ forall j, (1 <= j < k)%nat -> succeeds j = false)
  /\ (outcome (ingest succeeds) = DeadLettered
      <-> forall j, (1 <= j <= 5)%nat -> succeeds j = false).
Proof.
  unfold ingest, maxAttempts.
  assert (Hp : forall k',
    outcome (attempts succeeds 1 5) = Processed k' ->
    (1 <= k' <= 5)%nat /\ succeeds k' = true
    /\ forall j, (1 <= j < k')%nat -> succeeds j = false).
  { intros k' H. apply attempts_processed in H
      as (Hrange & Hok & Hfail & _). repeat split; auto; lia. }
  assert (Hd : outcome (attempts succeeds 1 5) = DeadLettered ->
               forall j, (1 <= j <= 5)%nat -> succeeds j = false).
  { intros H j Hj. apply attempts_deadLettered in H as (Hfail & _).
    apply Hfail. lia. }
  split; split.
  - apply Hp.
  - intros (Hrange & Hok & Hfail).
    destruct (outcome (attempts succeeds 1 5)) as [k'|] eqn:E.
    + destruct (Hp _ eq_refl) as (Hrange' & Hok' & Hfail').
      destruct (Nat.lt_trichotomy k k') as [Hlt|[->|Hgt]]; [|reflexivity|].
      * rewrite Hfail' in Hok by lia. discriminate.
      * rewrite Hfail in Hok' by lia. discriminate.
    + rewrite (Hd eq_refl k) in Hok by lia. discriminate.
  - exact Hd.
  - intros Hall.
    destruct (outcome (attempts succeeds 1 5)) as [k'|] eqn:E;
      [|reflexivity].
    destruct (Hp _ eq_refl) as (Hrange' & Hok' & _).
    rewrite Hall in Hok' by lia. discriminate.
Qed.

(** X17: the failure log holds every failed attempt, in order and once;
    the waits between attempts add up to 2^k - 2 seconds when attempt k
    goes through and to 30 seconds when all 5 fail, so an ingestion never
    waits more than 30 seconds in all. *)
Theorem ingest_log_and_delay (succeeds : nat -> bool) :
  match outcome (ingest succeeds) with
  | Processed k =>
      failureLog (ingest succeeds) = seq 1 (k - 1)
      /\ totalDelay (ingest succeeds) = 2 ^ Z.of_nat k - 2
  | DeadLettered =>
      failureLog (ingest succeeds) = [1; 2; 3; 4; 5]%nat
      /\ totalDelay (ingest succeeds) = 30
  end
  /\ 0 <= totalDelay (ingest succeeds) <= 30.
Proof.
  unfold ingest, maxAttempts.
  destruct (outcome (attempts succeeds 1 5)) as [k|] eqn:E.
  - apply attempts_processed in E as (Hrange & _ & _ & Hlog & Hdelay).
    rewrite Hlog, Hdelay. unfold backoffDelay.
    split; [split; reflexivity|].
    assert (Hk : k = 1%nat \/ k = 2%nat \/ k = 3%nat \/ k = 4%nat
                 \/ k = 5%nat) by lia.
    destruct Hk as [->|[->|[->|[->| ->]]]]; simpl; lia.
  - apply attempts_deadLettered in E as (_ & Hlog & Hdelay).
    rewrite Hlog, Hdelay. unfold backoffDelay. simpl.
    split; [split; reflexivity|lia].
Qed.

Example third_attempt_processed :
  ingest MoreSamples.thirdTime
  = {| outcome := Processed 3; failureLog := [1; 2]%nat; totalDelay := 6 |}.
Proof. reflexivity. Qed.

Example never_succeeds_dead_lettered :
  outcome (ingest (fun _ => false)) = DeadLettered.
Proof. reflexivity. Qed.

End IngestionFacts.

(** ** Circuit breaker *)

Module BreakerFacts.

Import CircuitBreaker.

Lemma breaker_run_app (c : Circuit) (calls calls' : list Call) :
  run c (calls ++ calls') = run (run c calls) calls'.
Proof. unfold run. apply fold_left_app. Qed.

Lemma run_cons (c : Circuit) (call : Call) (calls : list Call) :
  run c (call :: calls) = run (record c call) calls.
Proof. reflexivity. Qed.

Lemma record_closed (k : nat) (call : Call) :
  record (Closed k) call
  = if ok call then Closed 0
    else if (failureThreshold <=? S k)%nat then Open (time call)
         else Closed (S k).
Proof. reflexivity. Qed.

Lemma record_halfOpen (s : nat) (call : Call) :
  record (HalfOpen s) call
  = if ok call
    then if (successThreshold <=? S s)%nat then Closed 0 else HalfOpen (S s)
    else Open (time call).
Proof. reflexivity. Qed.

Lemma record_open_early (t : Z) (call : Call) :
  time call < t + recoveryTimeout -> record (Open t) call = Open t.
Proof.
  intros H. unfold record, trial.
  replace (recoveryTimeout <=? time call - t) with false
    by (symmetry; apply Z.leb_gt; lia).
  reflexivity.
Qed.

Lemma record_open_late (t : Z) (call : Call) :
  t + recoveryTimeout <= time call ->
  record (Open t) call = record (HalfOpen 0) call.
Proof.
  intros H. unfold record, trial.
  replace (recoveryTimeout <=? time call - t) with true
    by (symmetry; apply Z.leb_le; lia).
  reflexivity.
Qed.

Lemma failureBurst_app (calls more : list Call) :
  failureBurst calls -> failureBurst (calls ++ more).
Proof.
  intros (pre & burst & post & -> & Hlen & Hall).
  exists pre, burst, (post ++ more).
  rewrite <- !app_assoc. auto.
Qed.

(** A breaker that started closed and met no burst of failures is closed,
    and counts the failures at the end of the calls it has seen. *)
Lemma closed_counts_trailing_failures (calls : list Call) :
  ~ failureBurst calls ->
  exists k pre trailing,
    run (Closed 0) calls = Closed k
    /\ (k < failureThreshold)%nat
    /\ calls = pre ++ trailing
    /\ length trailing = k
    /\ Forall (fun c => ok c = false) trailing.
Proof.
  induction calls as [|c calls IH] using rev_ind; intros Hno.
  - exists 0%nat, [], []. unfold failureThreshold. simpl.
    repeat split; auto; lia.
  - destruct IH as (k & pre & trailing & Hrun & Hk & -> & Hlen & Hall).
    { intros Hb. apply Hno. apply failureBurst_app. exact Hb. }
    rewrite breaker_run_app, Hrun, run_cons, record_closed.
    change (run ?x []) with x.
    destruct (ok c) eqn:Hok.
    + exists 0%nat, ((pre ++ trailing) ++ [c]), [].
      unfold failureThreshold. rewrite app_nil_r.
      repeat split; auto; lia.
    + destruct (failureThreshold <=? S k)%nat eqn:Hth.
      * exfalso. apply Hno.
        apply Nat.leb_le in Hth.
        exists pre, (trailing ++ [c]), [].
        rewrite app_nil_r, <- app_assoc. split; [reflexivity|].
        split.
        -- rewrite length_app. simpl. unfold failureThreshold in *. lia.
        -- apply Forall_app. split; [exact Hall|].
           constructor; [exact Hok|constructor].
      * apply Nat.leb_gt in Hth.
        exists (S k), pre, (trailing ++ [c]).
        rewrite <- app_assoc.
        split; [reflexivity|]. split; [exact Hth|].
        split; [reflexivity|]. split.
        -- rewrite length_app. simpl. lia.
        -- apply Forall_app. split; [exact Hall|].
           constructor; [exact Hok|constructor].
Qed.

(** X18: a breaker that starts closed stays closed as long as the calls it
    sees contain no 5 consecutive failures. *)
Theorem no_burst_stays_closed (calls : list Call)
    (Hno : ~ failureBurst calls) :
  exists k, (k < 5)%nat /\ run (Closed 0) calls = Closed k.
Proof.
  destruct (closed_counts_trailing_failures calls Hno)
    as (k & _ & _ & Hrun & Hk & _).
  exists k. split; [exact Hk|exact Hrun].
Qed.

Lemma failureBurst_length (calls : list Call) :
  failureBurst calls -> (failureThreshold <= length calls)%nat.
Proof.
  intros (pre & burst & post & -> & Hlen & _).
  rewrite !length_app. lia.
Qed.

Lemma no_burst_stays_closed_witness :
  exists k,
    (k < 5)%nat
    /\ run (Closed 0)
         [MoreSamples.call 1 false; MoreSamples.call 2 false;
          MoreSamples.call 3 true; MoreSamples.call 4 false]
       = Closed k.
Proof.
  apply no_burst_stays_closed.
  intros Hb. apply failureBurst_length in Hb.
  unfold failureThreshold in Hb. simpl in Hb. lia.
Defined.

(** X19: a closed breaker that has counted k consecutive failures opens at
    the failure that makes them 5, and is opened at the time of that
    failure; a fresh breaker opens at the fifth consecutive failure. *)
Theorem burst_opens (burst : list Call) :
  forall (k : nat) (c : Call)
         (Hcount : (k + length burst = 4)%nat)
         (Hfailed : Forall (fun c' => ok c' = false) (burst ++ [c])),
    run (Closed k) (burst ++ [c]) = Open (time c).
Proof.
  induction burst as [|b burst IH]; intros k c Hcount Hfailed.
  - simpl in Hcount. assert (k = 4%nat) as -> by lia.
    inversion Hfailed as [|? ? Hc _]; subst.
    change ([] ++ [c]) with [c].
    rewrite run_cons, record_closed, Hc. reflexivity.
  - simpl in Hcount.
    change ((b :: burst) ++ [c]) with (b :: (burst ++ [c])) in *.
    inversion Hfailed as [|? ? Hb Hrest]; subst.
    rewrite run_cons, record_closed, Hb.
    replace (failureThreshold <=? S k)%nat with false
      by (symmetry; apply Nat.leb_gt; unfold failureThreshold; lia).
    apply IH; [lia|exact Hrest].
Qed.

Lemma burst_opens_witness :
  run (Closed 0)
    ([MoreSamples.call 1 false; MoreSamples.call 2 false;
      MoreSamples.call 3 false; MoreSamples.call 4 false]
     ++ [MoreSamples.call 5 false])
  = Open 5.
Proof.
  apply (burst_opens _ 0%nat (MoreSamples.call 5 false)).
  - reflexivity.
  - repeat constructor.
Defined.

Lemma open_rejects (t : Z) (early : list Call) :
  Forall (fun c => time c < t + recoveryTimeout) early ->
  run (Open t) early = Open t.
Proof.
  induction early as [|c early IH]; intros Hall; [reflexivity|].
  inversion Hall as [|? ? Hc Hrest]; subst.
  rewrite run_cons, record_open_early by exact Hc.
  apply IH. exact Hrest.
Qed.

(** X20: an open breaker rejects every call made less than 30 seconds
    after it opened and stays open; once 30 seconds have passed, three
    successful calls in a row close it. *)
Theorem open_then_recovers (t : Z) (early : list Call) (c1 c2 c3 : Call)
    (Hearly : Forall (fun c => time c < t + 30) early)
    (Hlate : t + 30 <= time c1)
    (Hok : ok c1 = true /\ ok c2 = true /\ ok c3 = true) :
  run (Open t) early = Open t
  /\ run (Open t) (early ++ [c1; c2; c3]) = Closed 0.
Proof.
  destruct Hok as (H1 & H2 & H3).
  split; [apply open_rejects; exact Hearly|].
  rewrite breaker_run_app, open_rejects by exact Hearly.
  rewrite run_cons, record_open_late by exact Hlate.
  rewrite record_halfOpen, H1.
  unfold successThreshold. cbn [Nat.leb].
  rewrite run_cons, record_halfOpen, H2.
  unfold successThreshold. cbn [Nat.leb].
  rewrite run_cons, record_halfOpen, H3. reflexivity.
Qed.

Lemma open_then_recovers_witness :
  run (Open 100) [MoreSamples.call 110 true; MoreSamples.call 129 false]
  = Open 100
  /\ run (Open 100)
       ([MoreSamples.call 110 true; MoreSamples.call 129 false]
        ++ [MoreSamples.call 130 true; MoreSamples.call 131 true;
            MoreSamples.call 132 true])
     = Closed 0.
Proof.
  apply open_then_recovers.
  - repeat constructor.
  - discriminate.
  - repeat split.
Defined.

End BreakerFacts.

(** ** Queue status *)

Module QueueStatusFacts.

Import QueueEntry PriorityQueue.

Lemma countAt_cons (b : Z) (e : QueueEntry.t) (q : list QueueEntry.t) :
  countAt b (e :: q)
  = (if urgencyScore e =? b then 1 else 0) + countAt b q.
Proof.
  unfold countAt. simpl.
  destruct (urgencyScore e =? b); simpl length; lia.
Qed.

Lemma waited_bounds (now t0 : Z) (q : list QueueEntry.t) :
  Forall (fun e => t0 <= enqueueTime e <= now) q ->
  0 <= waited now q <= Z.of_nat (length q) * (now - t0).
Proof.
  induction q as [|e q IH]; intros Hq.
  - simpl. lia.
  - inversion Hq as [|? ? He Hrest]; subst.
    specialize (IH Hrest).
    change (waited now (e :: q)) with ((now - enqueueTime e) + waited now q).
    change (length (e :: q)) with (S (length q)).
    rewrite Nat2Z.inj_succ. nia.
Qed.

(** X21: for a queue whose entries carry scores from 1 to 10 and were
    enqueued between [t0] and [now], the per-score counts of the status
    add up to the total, and the average wait lies between 0 and
    [now - t0]. *)
Theorem status_consistent (now t0 : Z) (q : list QueueEntry.t)
    (Hscores : Forall (fun e => 1 <= urgencyScore e <= 10) q)
    (Htimes : Forall (fun e => t0 <= enqueueTime e <= now) q) :
  fold_right Z.add 0
    (map (queuedByUrgency (status now q)) [1; 2; 3; 4; 5; 6; 7; 8; 9; 10])
  = totalQueued (status now q)
  /\ 0 <= averageWaitTime (status now q) <= Z.max 0 (now - t0).
Proof.
  split.
  - clear Htimes. cbn [status queuedByUrgency totalQueued map fold_right].
    induction q as [|e q IH]; [reflexivity|].
    inversion Hscores as [|? ? He Hrest]; subst.
    specialize (IH Hrest).
    rewrite !countAt_cons.
    change (length (e :: q)) with (S (length q)).
    rewrite Nat2Z.inj_succ.
    assert (Hcase : urgencyScore e = 1 \/ urgencyScore e = 2
                    \/ urgencyScore e = 3 \/ urgencyScore e = 4
                    \/ urgencyScore e = 5 \/ urgencyScore e = 6
                    \/ urgencyScore e = 7 \/ urgencyScore e = 8
                    \/ urgencyScore e = 9 \/ urgencyScore e = 10) by lia.
    destruct Hcase as [H|[H|[H|[H|[H|[H|[H|[H|[H|H]]]]]]]]];
      rewrite H; cbn [Z.eqb Pos.eqb]; lia.
  - pose proof (waited_bounds now t0 q Htimes) as Hw.
    cbn [status averageWaitTime].
    destruct q as [|e q]; [lia|].
    set (n := Z.of_nat (length (e :: q))) in *.
    assert (Hn : 0 < n) by (subst n; simpl length; lia).
    split.
    + apply Z.div_pos; lia.
    + assert (Hd : waited now (e :: q) / n <= now - t0).
      { apply Z.div_le_upper_bound; lia. }
      lia.
Qed.

Lemma status_consistent_witness :
  fold_right Z.add 0
    (map (queuedByUrgency
            (status 10 [entry "X" 9 1; entry "Y" 9 2; entry "Z" 6 3]))
       [1; 2; 3; 4; 5; 6; 7; 8; 9; 10])
  = totalQueued (status 10 [entry "X" 9 1; entry "Y" 9 2; entry "Z" 6 3])
  /\ 0 <= averageWaitTime
            (status 10 [entry "X" 9 1; entry "Y" 9 2; entry "Z" 6 3])
       <= Z.max 0 (10 - 1).
Proof.
  apply status_consistent.
  - repeat constructor; discriminate.
  - repeat constructor; discriminate.
Defined.

Example status_sample :
  averageWaitTime (status 10 [entry "X" 9 1; entry "Y" 9 2; entry "Z" 6 3])
  = 8.
Proof. reflexivity. Qed.

End QueueStatusFacts.
